(** * StorePulse: authentication and tenant isolation

    A shallow embedding of

      - [services/api/auth.py]              ([AuthService])
      - [services/api/tenant_middleware.py] ([TenantContextMiddleware],
                                             [TenantLimitsService])
      - [services/api/tenant_management.py] ([create_store],
                                             [generate_api_key],
                                             [revoke_api_key])

    Python coroutines become computations in a reader/state/exception
    monad [M]: the reader part [Env] holds what the process does not
    control (clock, time zone, library functions, injected faults), the
    state part [State] holds the three SQL tables the code touches, the
    middleware's in-memory cache, the log and the trace of SQL statements
    that were executed.  A call runs at one instant of the clock. *)

From Stdlib Require Import ZArith String Ascii List Lia.
From stdpp Require Import base strings gmap pretty.
Import ListNotations.
Local Open Scope Z_scope.

(* ================================================================== *)
(** * Exceptions and results *)
(* ================================================================== *)

(** The exception classes the code distinguishes in its [except]
    clauses: [fastapi.HTTPException], [jwt.InvalidTokenError] (with its
    subclasses such as [ExpiredSignatureError]) and every other
    subclass of [Exception]. *)
Inductive exn : Type :=
| HTTPException (status_code : Z) (detail : string)
| InvalidTokenError (message : string)
| Exception (class_name message : string).

Inductive result (A : Type) : Type :=
| Return (a : A)
| Raise (e : exn).
Arguments Return {A} a.
Arguments Raise {A} e.

(** [str(e)], as used by the f-strings that log an exception.
    Starlette renders an [HTTPException] as ["<status>: <detail>"]. *)
Definition str_exn (e : exn) : string :=
  match e with
  | HTTPException c d => pretty c +:+ ": " +:+ d
  | InvalidTokenError m => m
  | Exception _ m => m
  end.

Definition is_HTTPException (e : exn) : bool :=
  match e with HTTPException _ _ => true | _ => false end.

Definition is_InvalidTokenError (e : exn) : bool :=
  match e with InvalidTokenError _ => true | _ => false end.

(** Python truthiness of an [Optional[str]]. *)
Definition truthy (s : option string) : bool :=
  match s with
  | Some s => negb (String.eqb s EmptyString)
  | None => false
  end.

(* ================================================================== *)
(** * Data model *)
(* ================================================================== *)

(** Rows of [tenants], [stores] and [store_api_keys], with the columns
    that the embedded queries read or write. *)
Record Tenant : Type := {
  t_tenant_id : string;
  t_company_name : string;
  t_max_stores : Z;
  t_is_active : bool
}.

Record Store : Type := {
  s_tenant_id : string;
  s_store_id : string;
  s_store_name : string;
  s_is_active : bool
}.

Record ApiKey : Type := {
  k_key_id : string;
  k_tenant_id : string;
  k_store_id : string;
  k_key_hash : string;
  k_is_active : bool;
  k_created_at : Z;
  k_last_used_at : option Z
}.

(** Modelled from the spec: the table declarations of [stores] and
    [store_api_keys] are not part of the sources.  Both [INSERT]
    statements leave [is_active] to its column default, which the spec
    (a new key is the active one, a new store counts against
    [max_stores]) and the responses built by the code ([is_active=True])
    take to be [TRUE]; no uniqueness constraint is assumed. *)
Definition is_active_default : bool := true.

(** JWT claims, as the dict that [jwt.decode] hands back.  ["exp"] is
    read with [payload["exp"]] and ["tenant_id"] with [payload.get], so
    both may be absent. *)
Record Payload : Type := {
  p_sub : string;
  p_tenant_id : option string;
  p_user_type : string;
  p_permissions : list string;
  p_exp : option Z;
  p_iat : Z;
  p_iss : string
}.

(** The subject descriptor given to [create_access_token]:
    ["user_id"] and ["tenant_id"] are indexed, the other two are read
    with [.get] and a default. *)
Record UserData : Type := {
  ud_user_id : string;
  ud_tenant_id : string;
  ud_user_type : option string;
  ud_permissions : option (list string)
}.

(** A compact JWT, abstracted to its claims and its signature. *)
Record Token : Type := {
  tok_claims : Payload;
  tok_signature : string
}.

(** The dict returned by [AuthService.verify_api_key]. *)
Record KeyContext : Type := {
  kc_tenant_id : string;
  kc_store_id : string;
  kc_key_id : string;
  kc_company_name : string;
  kc_store_name : string;
  kc_auth_type : string
}.

(** An entry of [TenantContextMiddleware.api_key_cache]. *)
Record CacheEntry : Type := {
  ce_tenant_id : option string;
  ce_store_id : option string;
  ce_expires : Z
}.

(** SQL statements handed to [db.execute], kept as a trace. *)
Inductive Sql : Type :=
| SelectKeyTenantStore (key_hash : string)
| SelectKeyTenant (key_hash : string)
| UpdateLastUsed (key_hash : string)
| SelectTenantIsActive (tenant_id : string)
| SetAppTenant (tenant_id : string)
| SelectTenantLimits (tenant_id : string)
| CountActiveStores (tenant_id : string)
| SelectStore (tenant_id store_id : string)
| InsertStore (tenant_id store_id : string)
| SelectActiveStore (tenant_id store_id : string)
| DeactivateKeys (tenant_id store_id : string)
| InsertKey (key_id : string)
| RevokeKey (key_id tenant_id : string).

Inductive Level : Type := INFO | WARNING | ERROR.

Record LogRecord : Type := {
  lr_level : Level;
  lr_message : string;
  lr_extra : list (string * string)
}.

(** What the process does not control. *)
Record Env : Type := {
  (** [hashlib.sha256(s.encode()).hexdigest()] *)
  sha256_hexdigest : string -> string;
  (** [jwt.encode(payload, key, algorithm)] *)
  jwt_encode : Payload -> string -> string -> Token;
  (** [jwt.decode(token, key, algorithms)] at a given POSIX time *)
  jwt_decode : Token -> string -> list string -> Z -> result Payload;
  (** the value drawn by [secrets.token_urlsafe(32)] *)
  token_urlsafe : string;
  (** POSIX time of the call, in seconds *)
  posix_time : Z;
  (** offset of the host's local time zone from UTC, in seconds *)
  utc_offset : Z;
  (** when set, the [UPDATE ... SET last_used_at] statement raises it *)
  touch_fault : option exn;
  (** when set, the activity log call raises it *)
  activity_fault : option exn
}.

Record State : Type := {
  tenants : list Tenant;
  stores : list Store;
  store_api_keys : list ApiKey;
  api_key_cache : gmap string CacheEntry;
  statements : list Sql;
  log : list LogRecord;
  tasks : list string
}.

Definition set_stores (l : list Store) (st : State) : State :=
  {| tenants := tenants st; stores := l;
     store_api_keys := store_api_keys st;
     api_key_cache := api_key_cache st; statements := statements st;
     log := log st; tasks := tasks st |}.

Definition set_store_api_keys (l : list ApiKey) (st : State) : State :=
  {| tenants := tenants st; stores := stores st;
     store_api_keys := l;
     api_key_cache := api_key_cache st; statements := statements st;
     log := log st; tasks := tasks st |}.

Definition set_api_key_cache (c : gmap string CacheEntry) (st : State) : State :=
  {| tenants := tenants st; stores := stores st;
     store_api_keys := store_api_keys st;
     api_key_cache := c; statements := statements st;
     log := log st; tasks := tasks st |}.

Definition add_statement (q : Sql) (st : State) : State :=
  {| tenants := tenants st; stores := stores st;
     store_api_keys := store_api_keys st;
     api_key_cache := api_key_cache st;
     statements := statements st ++ [q];
     log := log st; tasks := tasks st |}.

Definition add_log (r : LogRecord) (st : State) : State :=
  {| tenants := tenants st; stores := stores st;
     store_api_keys := store_api_keys st;
     api_key_cache := api_key_cache st; statements := statements st;
     log := log st ++ [r]; tasks := tasks st |}.

Definition add_task (t : string) (st : State) : State :=
  {| tenants := tenants st; stores := stores st;
     store_api_keys := store_api_keys st;
     api_key_cache := api_key_cache st; statements := statements st;
     log := log st; tasks := tasks st ++ [t] |}.

(* ================================================================== *)
(** * The monad of coroutines *)
(* ================================================================== *)

Definition M (A : Type) : Type := Env -> State -> result A * State.

Definition ret {A} (a : A) : M A := fun _ st => (Return a, st).

Definition raise {A} (e : exn) : M A := fun _ st => (Raise e, st).

Definition bind {A B} (m : M A) (f : A -> M B) : M B :=
  fun env st =>
    match m env st with
    | (Return a, st') => f a env st'
    | (Raise e, st') => (Raise e, st')
    end.

Notation "'do' x <- m ; k" := (bind m (fun x => k))
  (at level 10, x name, m at level 100, k at level 200,
   format "'[v' 'do'  x  <-  m ; '/' k ']'").
Notation "'do' ' p <- m ; k" :=
  (bind m (fun x => match x with p => k end))
  (at level 10, p pattern, m at level 100, k at level 200).
Notation "'run' m ; k" := (bind m (fun _ => k))
  (at level 10, m at level 100, k at level 200,
   format "'[v' 'run'  m ; '/' k ']'").

(** [try: body  except ...: handler e]; the handler sees every
    exception and re-raises what its clauses do not match. *)
Definition try_except {A} (body : M A) (handler : exn -> M A) : M A :=
  fun env st =>
    match body env st with
    | (Return a, st') => (Return a, st')
    | (Raise e, st') => handler e env st'
    end.

Definition ask : M Env := fun env st => (Return env, st).
Definition get : M State := fun _ st => (Return st, st).
Definition modify (f : State -> State) : M unit :=
  fun _ st => (Return tt, f st).

(** [await db.execute(text(q), ...)]: the statement enters the trace. *)
Definition execute (q : Sql) : M unit := modify (add_statement q).

Definition logger (lv : Level) (msg : string) (extra : list (string * string)) : M unit :=
  modify (add_log {| lr_level := lv; lr_message := msg; lr_extra := extra |}).

(** Naive datetimes are seconds on their own wall clock:
    [datetime.utcnow()] reads the UTC wall clock,
    [datetime.fromtimestamp(ts)] converts to the host's local one. *)
Definition utcnow (env : Env) : Z := posix_time env.
Definition fromtimestamp (env : Env) (ts : Z) : Z := ts + utc_offset env.

(* ================================================================== *)
(** * SQL over the table images *)
(* ================================================================== *)

(** [fetchone()]: the first row of the result, if any.  Rows come out
    in table order. *)
Definition fetchone {A} (rows : list A) : option A := hd_error rows.

(** auth.py, [verify_api_key]:
    [FROM store_api_keys k JOIN tenants t ON k.tenant_id = t.tenant_id
     JOIN stores s ON k.tenant_id = s.tenant_id AND k.store_id = s.store_id
     WHERE k.key_hash = :key_hash AND k.is_active = TRUE] *)
Definition select_key_tenant_store (key_hash : string) (st : State)
  : list (ApiKey * Tenant * Store) :=
  flat_map (fun k =>
    flat_map (fun t =>
      map (fun s => (k, t, s))
        (List.filter
           (fun s => String.eqb (k_tenant_id k) (s_tenant_id s)
                     && String.eqb (k_store_id k) (s_store_id s))
           (stores st)))
      (List.filter (fun t => String.eqb (k_tenant_id k) (t_tenant_id t))
         (tenants st)))
    (List.filter
       (fun k => String.eqb (k_key_hash k) key_hash && k_is_active k)
       (store_api_keys st)).

(** tenant_middleware.py, [_lookup_api_key]:
    [FROM store_api_keys k JOIN tenants t ON k.tenant_id = t.tenant_id
     WHERE k.key_hash = :key_hash AND k.is_active = TRUE
     AND t.is_active = TRUE] *)
Definition select_key_tenant (key_hash : string) (st : State)
  : list (ApiKey * Tenant) :=
  flat_map (fun k =>
    map (fun t => (k, t))
      (List.filter
         (fun t => String.eqb (k_tenant_id k) (t_tenant_id t)
                   && t_is_active t)
         (tenants st)))
    (List.filter
       (fun k => String.eqb (k_key_hash k) key_hash && k_is_active k)
       (store_api_keys st)).

(** [SET last_used_at = NOW() WHERE key_hash = :key_hash], on one row. *)
Definition touch (key_hash : string) (now : Z) (k : ApiKey) : ApiKey :=
  if String.eqb (k_key_hash k) key_hash then
    {| k_key_id := k_key_id k; k_tenant_id := k_tenant_id k;
       k_store_id := k_store_id k; k_key_hash := k_key_hash k;
       k_is_active := k_is_active k; k_created_at := k_created_at k;
       k_last_used_at := Some now |}
  else k.

(** [await db.execute(text("UPDATE store_api_keys SET last_used_at ...")]
    followed by [await db.commit()].  The statement is issued; the
    store either applies it or raises. *)
Definition update_last_used (key_hash : string) : M unit :=
  fun env st =>
    let st' := add_statement (UpdateLastUsed key_hash) st in
    match touch_fault env with
    | Some e => (Raise e, st')
    | None =>
        (Return tt,
         set_store_api_keys
           (map (touch key_hash (posix_time env)) (store_api_keys st')) st')
    end.

(** [SET is_active = FALSE], on one row. *)
Definition deactivate (k : ApiKey) : ApiKey :=
  {| k_key_id := k_key_id k; k_tenant_id := k_tenant_id k;
     k_store_id := k_store_id k; k_key_hash := k_key_hash k;
     k_is_active := false; k_created_at := k_created_at k;
     k_last_used_at := k_last_used_at k |}.

Definition same_store (tenant_id store_id : string) (k : ApiKey) : bool :=
  String.eqb (k_tenant_id k) tenant_id && String.eqb (k_store_id k) store_id.

(** [UPDATE store_api_keys SET is_active = FALSE
     WHERE tenant_id = :tenant_id AND store_id = :store_id] *)
Definition deactivate_keys (tenant_id store_id : string) (ks : list ApiKey)
  : list ApiKey :=
  map (fun k => if same_store tenant_id store_id k then deactivate k else k) ks.

(** [SELECT COUNT( * ) FROM stores
     WHERE tenant_id = :tenant_id AND is_active = TRUE] *)
Definition active_store_count (tenant_id : string) (ss : list Store) : Z :=
  Z.of_nat (length (List.filter
    (fun s => String.eqb (s_tenant_id s) tenant_id && s_is_active s) ss)).

(** [SELECT ... FROM tenants
     WHERE tenant_id = :tenant_id AND is_active = TRUE] *)
Definition select_active_tenant (tenant_id : string) (ts : list Tenant)
  : option Tenant :=
  fetchone (List.filter
    (fun t => String.eqb (t_tenant_id t) tenant_id && t_is_active t) ts).

(** [SELECT ... FROM stores
     WHERE tenant_id = :tenant_id AND store_id = :store_id] *)
Definition select_store (tenant_id store_id : string) (ss : list Store)
  : option Store :=
  fetchone (List.filter
    (fun s => String.eqb (s_tenant_id s) tenant_id
              && String.eqb (s_store_id s) store_id) ss).

(* ================================================================== *)
(** * auth.py: API keys *)
(* ================================================================== *)

(** [api_key[:16]] *)
Definition first16 (s : string) : string := String.substring 0 16 s.

Definition verify_api_key (api_key : string) : M KeyContext :=
  if String.eqb api_key EmptyString then
    raise (HTTPException 401 "API key required")
  else
    do env <- ask;
    let key_hash := sha256_hexdigest env api_key in
    run execute (SelectKeyTenantStore key_hash);
    do st <- get;
    match fetchone (select_key_tenant_store key_hash st) with
    | None =>
        run logger WARNING
              ("Invalid API key attempt: " +:+ first16 api_key +:+ "...") [];
        raise (HTTPException 401 "Invalid API key")
    | Some (k, t, s) =>
        if negb (t_is_active t) then
          raise (HTTPException 401 "Tenant account is inactive")
        else if negb (s_is_active s) then
          raise (HTTPException 401 "Store is inactive")
        else
          run update_last_used key_hash;
          ret {| kc_tenant_id := k_tenant_id k;
                 kc_store_id := k_store_id k;
                 kc_key_id := k_key_id k;
                 kc_company_name := t_company_name t;
                 kc_store_name := s_store_name s;
                 kc_auth_type := "api_key" |}
    end.

(* ================================================================== *)
(** * auth.py: session tokens *)
(* ================================================================== *)

Record AuthService : Type := {
  jwt_secret : string;
  jwt_algorithm : string;
  access_token_expire_minutes : Z
}.

(** [AuthService.__init__], as called by [init_auth_service]. *)
Definition init_auth_service (secret : string) : AuthService :=
  {| jwt_secret := secret; jwt_algorithm := "HS256";
     access_token_expire_minutes := 60 |}.

(** The claims that [create_access_token] signs.  A naive UTC datetime
    is serialised by the library as the POSIX time it denotes. *)
Definition access_token_payload (self : AuthService) (user_data : UserData)
    (env : Env) : Payload :=
  let expire := utcnow env + access_token_expire_minutes self * 60 in
  {| p_sub := ud_user_id user_data;
     p_tenant_id := Some (ud_tenant_id user_data);
     p_user_type := default "client"%string (ud_user_type user_data);
     p_permissions := default [] (ud_permissions user_data);
     p_exp := Some expire;
     p_iat := utcnow env;
     p_iss := "storepulse-auth" |}.

Definition create_access_token (self : AuthService) (user_data : UserData)
  : M Token :=
  do env <- ask;
  let payload := access_token_payload self user_data env in
  ret (jwt_encode env payload (jwt_secret self) (jwt_algorithm self)).

(** [return tenant and tenant.is_active] *)
Definition _verify_tenant_active (tenant_id : string) : M bool :=
  run execute (SelectTenantIsActive tenant_id);
  do st <- get;
  match fetchone (List.filter
           (fun t => String.eqb (t_tenant_id t) tenant_id) (tenants st)) with
  | None => ret false
  | Some tenant => ret (t_is_active tenant)
  end.

(** The [try] block of [verify_access_token]. *)
Definition verify_access_token_body (self : AuthService) (token : Token)
  : M Payload :=
  do env <- ask;
  match jwt_decode env token (jwt_secret self) [jwt_algorithm self]
          (posix_time env) with
  | Raise e => raise e
  | Return payload =>
      match p_exp payload with
      | None => raise (Exception "KeyError" "'exp'")
      | Some exp =>
          if utcnow env >? fromtimestamp env exp then
            raise (HTTPException 401 "Token expired")
          else
            match p_tenant_id payload with
            | Some tenant_id =>
                if truthy (Some tenant_id) then
                  do active <- _verify_tenant_active tenant_id;
                  if negb active then
                    raise (HTTPException 401 "Tenant inactive or not found")
                  else ret payload
                else ret payload
            | None => ret payload
            end
      end
  end.

(** The two [except] clauses, tried in order: [jwt.InvalidTokenError],
    then [Exception], which every exception class here derives from. *)
Definition verify_access_token_except (e : exn) : M Payload :=
  if is_InvalidTokenError e then
    raise (HTTPException 401 ("Invalid token: " +:+ str_exn e))
  else
    run logger ERROR ("Token verification error: " +:+ str_exn e) [];
    raise (HTTPException 401 "Token verification failed").

Definition verify_access_token (self : AuthService) (token : Token)
  : M Payload :=
  try_except (verify_access_token_body self token) verify_access_token_except.

(* ================================================================== *)
(** * tenant_middleware.py: [TenantContextMiddleware] *)
(* ================================================================== *)

Record Request : Type := {
  url_path : string;
  method : string;
  (** [request.headers.get("Authorization")] *)
  authorization : option string;
  (** [request.state.tenant_id], [request.state.store_id] *)
  state_tenant_id : option string;
  state_store_id : option string
}.

Record Response : Type := {
  resp_status_code : Z;
  resp_detail : string
}.

(** [JSONResponse(status_code=..., content={"detail": ...})] *)
Definition JSONResponse (status_code : Z) (detail : string) : Response :=
  {| resp_status_code := status_code; resp_detail := detail |}.

(** [self.cache_ttl], set once in [__init__]. *)
Definition cache_ttl : Z := 300.

(** [s.replace(old, new)] for a non-empty [old]: occurrences are found
    left to right and do not overlap.  [skip] counts the characters of
    a match that are still to be dropped. *)
Fixpoint replace_from (skip : nat) (old new s : string) : string :=
  match s with
  | EmptyString => EmptyString
  | String c s' =>
      match skip with
      | S k => replace_from k old new s'
      | O =>
          if String.prefix old s then
            new +:+ replace_from (Nat.pred (String.length old)) old new s'
          else String c (replace_from O old new s')
      end
  end.

Definition str_replace (old new s : string) : string :=
  replace_from O old new s.

Definition _lookup_api_key (api_key : string)
  : M (option string * option string) :=
  do env <- ask;
  let key_hash := sha256_hexdigest env api_key in
  run execute (SelectKeyTenant key_hash);
  do st <- get;
  match fetchone (select_key_tenant key_hash st) with
  | Some (k, _) =>
      run update_last_used key_hash;
      ret (Some (k_tenant_id k), Some (k_store_id k))
  | None => ret (None, None)
  end.

(** [cached_result and cached_result['expires'] > datetime.utcnow()]:
    a stored entry is a non-empty dict, hence truthy. *)
Definition cache_hit (now : Z) (cached_result : option CacheEntry)
  : option CacheEntry :=
  match cached_result with
  | Some c => if ce_expires c >? now then Some c else None
  | None => None
  end.

Definition _extract_tenant_context (request : Request)
  : M (option string * option string) :=
  let auth_header := default EmptyString (authorization request) in
  if negb (String.prefix "Bearer " auth_header) then ret (None, None)
  else
    let api_key := str_replace "Bearer " EmptyString auth_header in
    if String.eqb api_key EmptyString then ret (None, None)
    else
      do env <- ask;
      let cache_key := sha256_hexdigest env api_key in
      do st <- get;
      let cached_result := api_key_cache st !! cache_key in
      match cache_hit (utcnow env) cached_result with
      | Some c => ret (ce_tenant_id c, ce_store_id c)
      | None =>
          do '(tenant_id, store_id) <- _lookup_api_key api_key;
          run (if truthy tenant_id then
                 modify (fun st =>
                   set_api_key_cache
                     (<[cache_key :=
                          {| ce_tenant_id := tenant_id;
                             ce_store_id := store_id;
                             ce_expires := utcnow env + cache_ttl |}]>
                        (api_key_cache st)) st)
               else ret tt);
          ret (tenant_id, store_id)
      end.

(** [await db.execute(text(f"SET app.tenant_id = '{tenant_id}'"))]:
    the statement is taken to be accepted by the store.  Its text is
    built by interpolation, so a tenant id that contains a quote
    changes the statement itself; such ids are not modelled. *)
Definition _set_database_context (tenant_id : string) : M unit :=
  execute (SetAppTenant tenant_id).

(** [_validate_tenant_limits] imports its limits service from
    [.services.tenant_service]; the two methods it calls are taken as
    arguments, and may raise. *)
Definition _validate_tenant_limits
    (validate_store_limit check_cost_limit : string -> M unit)
    (tenant_id : string) : M unit :=
  try_except
    (run validate_store_limit tenant_id;
     do env <- ask;
     let current_hour := (utcnow env / 3600) mod 24 in
     if current_hour mod 4 =? 0 then check_cost_limit tenant_id
     else ret tt)
    (fun e =>
       logger WARNING
         ("Tenant limits validation failed for " +:+ tenant_id +:+ ": "
          +:+ str_exn e) []).

(** [logger.info("Tenant activity", extra={...})], the one log call
    whose failure is considered. *)
Definition _log_tenant_activity (tenant_id store_id : option string)
    (request : Request) : M unit :=
  do env <- ask;
  match activity_fault env with
  | Some e => raise e
  | None =>
      logger INFO "Tenant activity"
        [("tenant_id", default "None" tenant_id);
         ("store_id", default "None" store_id);
         ("method", method request);
         ("path", url_path request);
         ("timestamp", pretty (utcnow env))]%string
  end.

(** [asyncio.create_task(self._validate_tenant_limits(tenant_id))]: the
    task is handed to the event loop and its handle dropped. *)
Definition create_task_validate_tenant_limits (tenant_id : string) : M unit :=
  modify (add_task tenant_id).

Definition bypass_paths : list string :=
  ["/health"; "/docs"; "/openapi.json"]%string.

Definition set_request_state (tenant_id store_id : option string)
    (request : Request) : Request :=
  {| url_path := url_path request; method := method request;
     authorization := authorization request;
     state_tenant_id := tenant_id; state_store_id := store_id |}.

(** The [try] block of [__call__]. *)
Definition call_body (call_next : Request -> M Response) (request : Request)
  : M Response :=
  do '(tenant_id, store_id) <- _extract_tenant_context request;
  if negb (truthy tenant_id) then
    ret (JSONResponse 401 "Invalid or missing API key")
  else
    let request := set_request_state tenant_id store_id request in
    run _set_database_context (default EmptyString tenant_id);
    run create_task_validate_tenant_limits (default EmptyString tenant_id);
    do response <- call_next request;
    run _log_tenant_activity tenant_id store_id request;
    ret response.

(** [except HTTPException: raise], then
    [except Exception as e: ... return JSONResponse(500, ...)]. *)
Definition call_except (e : exn) : M Response :=
  if is_HTTPException e then raise e
  else
    run logger ERROR ("Tenant middleware error: " +:+ str_exn e) [];
    ret (JSONResponse 500 "Internal server error").

Definition __call__ (call_next : Request -> M Response) (request : Request)
  : M Response :=
  if existsb (String.eqb (url_path request)) bypass_paths then
    call_next request
  else
    try_except (call_body call_next request) call_except.

(* ================================================================== *)
(** * tenant_middleware.py: [TenantLimitsService] *)
(* ================================================================== *)

Definition validate_store_limit (tenant_id : string) : M unit :=
  run execute (SelectTenantLimits tenant_id);
  do st <- get;
  match select_active_tenant tenant_id (tenants st) with
  | None =>
      raise (HTTPException 404
               ("Tenant " +:+ tenant_id +:+ " not found or inactive"))
  | Some tenant =>
      run execute (CountActiveStores tenant_id);
      let store_count := active_store_count tenant_id (stores st) in
      if store_count >=? t_max_stores tenant then
        run logger WARNING
              ("Store limit exceeded for tenant " +:+ tenant_id +:+ ": "
               +:+ pretty store_count +:+ "/"
               +:+ pretty (t_max_stores tenant)) [];
        raise (HTTPException 429
                 ("Store limit exceeded: " +:+ pretty store_count +:+ "/"
                  +:+ pretty (t_max_stores tenant)))
      else ret tt
  end.

(* ================================================================== *)
(** * tenant_management.py *)
(* ================================================================== *)

Record StoreCreate : Type := {
  sc_store_id : string;
  sc_store_name : string
}.

Record APIKeyResponse : Type := {
  ar_key_id : string;
  ar_tenant_id : string;
  ar_store_id : string;
  ar_api_key : string;
  ar_created_at : Z;
  ar_is_active : bool
}.

Definition get_store (tenant_id store_id : string) : M Store :=
  run execute (SelectStore tenant_id store_id);
  do st <- get;
  match select_store tenant_id store_id (stores st) with
  | None =>
      raise (HTTPException 404
               ("Store " +:+ store_id +:+ " not found for tenant "
                +:+ tenant_id))
  | Some store => ret store
  end.

Definition create_store (tenant_id : string) (store : StoreCreate) : M Store :=
  run execute (SelectTenantLimits tenant_id);
  do st <- get;
  match select_active_tenant tenant_id (tenants st) with
  | None =>
      raise (HTTPException 404
               ("Tenant " +:+ tenant_id +:+ " not found or inactive"))
  | Some tenant_data =>
      run execute (CountActiveStores tenant_id);
      let store_count := active_store_count tenant_id (stores st) in
      if store_count >=? t_max_stores tenant_data then
        raise (HTTPException 409
                 ("Store limit reached: " +:+ pretty store_count +:+ "/"
                  +:+ pretty (t_max_stores tenant_data)))
      else
        run execute (SelectStore tenant_id (sc_store_id store));
        match select_store tenant_id (sc_store_id store) (stores st) with
        | Some _ =>
            raise (HTTPException 409
                     ("Store " +:+ sc_store_id store
                      +:+ " already exists for tenant " +:+ tenant_id))
        | None =>
            run execute (InsertStore tenant_id (sc_store_id store));
            run modify (fun st =>
                  set_stores
                    (stores st ++
                       [{| s_tenant_id := tenant_id;
                           s_store_id := sc_store_id store;
                           s_store_name := sc_store_name store;
                           s_is_active := is_active_default |}]) st);
            run logger INFO
                  ("Created store " +:+ sc_store_id store +:+ " for tenant "
                   +:+ tenant_id) [];
            get_store tenant_id (sc_store_id store)
        end
  end.

Definition generate_api_key (tenant_id store_id : string) : M APIKeyResponse :=
  run execute (SelectActiveStore tenant_id store_id);
  do st <- get;
  match fetchone (List.filter
           (fun s => String.eqb (s_tenant_id s) tenant_id
                     && String.eqb (s_store_id s) store_id
                     && s_is_active s) (stores st)) with
  | None =>
      raise (HTTPException 404
               ("Store " +:+ store_id +:+ " not found for tenant "
                +:+ tenant_id))
  | Some _ =>
      run execute (DeactivateKeys tenant_id store_id);
      run modify (fun st =>
            set_store_api_keys
              (deactivate_keys tenant_id store_id (store_api_keys st)) st);
      do env <- ask;
      let api_key := "store_" +:+ tenant_id +:+ "_" +:+ store_id +:+ "_"
                     +:+ token_urlsafe env in
      let key_id := "store_" +:+ tenant_id +:+ "_" +:+ store_id in
      let key_hash := sha256_hexdigest env api_key in
      run execute (InsertKey key_id);
      run modify (fun st =>
            set_store_api_keys
              (store_api_keys st ++
                 [{| k_key_id := key_id; k_tenant_id := tenant_id;
                     k_store_id := store_id; k_key_hash := key_hash;
                     k_is_active := is_active_default;
                     k_created_at := posix_time env;
                     k_last_used_at := None |}]) st);
      run logger INFO
            ("Generated new API key for " +:+ tenant_id +:+ "/"
             +:+ store_id) [];
      ret {| ar_key_id := key_id; ar_tenant_id := tenant_id;
             ar_store_id := store_id; ar_api_key := api_key;
             ar_created_at := utcnow env; ar_is_active := true |}
  end.

(** [UPDATE store_api_keys SET is_active = FALSE
     WHERE key_id = :key_id AND tenant_id = :tenant_id RETURNING key_id] *)
Definition revoke_api_key (tenant_id key_id : string) : M unit :=
  run execute (RevokeKey key_id tenant_id);
  do st <- get;
  let hit := fun k => String.eqb (k_key_id k) key_id
                      && String.eqb (k_tenant_id k) tenant_id in
  match fetchone (List.filter hit (store_api_keys st)) with
  | None =>
      raise (HTTPException 404
               ("API key " +:+ key_id +:+ " not found for tenant "
                +:+ tenant_id))
  | Some _ =>
      run modify (fun st =>
            set_store_api_keys
              (map (fun k => if hit k then deactivate k else k)
                 (store_api_keys st)) st);
      logger INFO
        ("Revoked API key " +:+ key_id +:+ " for tenant " +:+ tenant_id) []
  end.

(* ================================================================== *)
(** * Observations on the statement trace *)
(* ================================================================== *)

Definition is_key_lookup (q : Sql) : bool :=
  match q with
  | SelectKeyTenantStore _ | SelectKeyTenant _ => true
  | _ => false
  end.

Definition is_update_last_used (q : Sql) : bool :=
  match q with UpdateLastUsed _ => true | _ => false end.

(** Number of key lookups sent to the external store so far. *)
Definition key_lookups (st : State) : Z :=
  Z.of_nat (length (List.filter is_key_lookup (statements st))).

(** Number of usage-timestamp updates sent to the external store. *)
Definition last_used_updates (st : State) : Z :=
  Z.of_nat (length (List.filter is_update_last_used (statements st))).

(** Active keys of one (tenant, store) pair. *)
Definition active_keys (tenant_id store_id : string) (ks : list ApiKey)
  : list ApiKey :=
  List.filter (fun k => same_store tenant_id store_id k && k_is_active k) ks.

(** The invariant of the data model: at most one active key per pair. *)
Definition one_active_key_per_store (ks : list ApiKey) : Prop :=
  forall tenant_id store_id,
    (length (active_keys tenant_id store_id ks) <= 1)%nat.

(** The raw key carried by a request, as [_extract_tenant_context]
    computes it. *)
Definition bearer_key (request : Request) : string :=
  str_replace "Bearer " EmptyString (default EmptyString (authorization request)).

(** The same host at another instant. *)
Definition at_time (now : Z) (env : Env) : Env :=
  {| sha256_hexdigest := sha256_hexdigest env;
     jwt_encode := jwt_encode env; jwt_decode := jwt_decode env;
     token_urlsafe := token_urlsafe env;
     posix_time := now; utc_offset := utc_offset env;
     touch_fault := touch_fault env;
     activity_fault := activity_fault env |}.

(** The contract of the token library that the round trip relies on:
    a token presented no earlier than its ["iat"] and before its
    ["exp"] decodes, with the key and algorithm it was signed with, to
    the claims that were encoded.  Nothing is asked of the library for
    a token whose ["iat"] lies in the future: PyJWT rejects it. *)
Definition jwt_round_trip (env : Env) : Prop :=
  forall payload key alg now,
    p_iat payload <= now ->
    (forall exp, p_exp payload = Some exp -> now < exp) ->
    jwt_decode env (jwt_encode env payload key alg) key [alg] now
    = Return payload.

(** One call of an operation that writes [store_api_keys], whatever
    its outcome. *)
Inductive key_table_step (st st' : State) : Prop :=
| step_generate_api_key tenant_id store_id env r :
    generate_api_key tenant_id store_id env st = (r, st') ->
    key_table_step st st'
| step_revoke_api_key tenant_id key_id env r :
    revoke_api_key tenant_id key_id env st = (r, st') ->
    key_table_step st st'
| step_verify_api_key api_key env r :
    verify_api_key api_key env st = (r, st') ->
    key_table_step st st'
| step_lookup_api_key api_key env r :
    _lookup_api_key api_key env st = (r, st') ->
    key_table_step st st'.

(** The states that these operations reach from an empty key table. *)
Inductive reachable : State -> Prop :=
| reachable_init st : store_api_keys st = [] -> reachable st
| reachable_step st st' :
    reachable st -> key_table_step st st' -> reachable st'.

(* ================================================================== *)
(** * A reference host, for evaluating the code *)
(* ================================================================== *)

Module Reference.

(** Stand-in for SHA-256: any function of the key will do, the code
    only compares digests. *)
Definition sha256 (s : string) : string := "sha256:" +:+ s.

(** Stand-in for the HMAC of PyJWT. *)
Definition sign (key alg : string) (p : Payload) : string :=
  alg +:+ "." +:+ key +:+ "." +:+ p_sub p +:+ "."
  +:+ default EmptyString (p_tenant_id p).

Definition encode (p : Payload) (key alg : string) : Token :=
  {| tok_claims := p; tok_signature := sign key alg p |}.

(** PyJWT checks the signature, then ["iat"] and then ["exp"] against
    the current time; [ImmatureSignatureError] and
    [ExpiredSignatureError] are [InvalidTokenError]s. *)
Definition decode (t : Token) (key : string) (algs : list string)
    (now : Z) : result Payload :=
  if existsb
       (fun alg => String.eqb (tok_signature t) (sign key alg (tok_claims t)))
       algs
  then
    if now <? p_iat (tok_claims t) then
      Raise (InvalidTokenError "The token is not yet valid (iat)")
    else
      match p_exp (tok_claims t) with
      | Some exp =>
          if exp <=? now then Raise (InvalidTokenError "Signature has expired")
          else Return (tok_claims t)
      | None => Return (tok_claims t)
      end
  else Raise (InvalidTokenError "Signature verification failed").

Definition host (now offset : Z) : Env :=
  {| sha256_hexdigest := sha256;
     jwt_encode := encode; jwt_decode := decode;
     token_urlsafe := "abc123";
     posix_time := now; utc_offset := offset;
     touch_fault := None; activity_fault := None |}.



(** Tenant [t1] may have two stores; [s1] is active, [s2] has been
    deactivated; each store has one active key. *)
Definition t1 : Tenant :=
  {| t_tenant_id := "t1"; t_company_name := "Acme";
     t_max_stores := 2; t_is_active := true |}.

Definition s1 : Store :=
  {| s_tenant_id := "t1"; s_store_id := "s1";
     s_store_name := "Centro"; s_is_active := true |}.

Definition s2 : Store :=
  {| s_tenant_id := "t1"; s_store_id := "s2";
     s_store_name := "Norte"; s_is_active := false |}.

Definition key_s1 : ApiKey :=
  {| k_key_id := "store_t1_s1"; k_tenant_id := "t1"; k_store_id := "s1";
     k_key_hash := sha256 "store_t1_s1_abc123";
     k_is_active := true; k_created_at := 0; k_last_used_at := None |}.

Definition key_s2 : ApiKey :=
  {| k_key_id := "store_t1_s2"; k_tenant_id := "t1"; k_store_id := "s2";
     k_key_hash := sha256 "store_t1_s2_def456";
     k_is_active := true; k_created_at := 0; k_last_used_at := None |}.

Definition db0 : State :=
  {| tenants := [t1]; stores := [s1; s2];
     store_api_keys := [key_s1; key_s2];
     api_key_cache := ∅; statements := []; log := []; tasks := [] |}.

(** The same database after tenant [t1] has been deactivated. *)
Definition t1_off : Tenant :=
  {| t_tenant_id := "t1"; t_company_name := "Acme";
     t_max_stores := 2; t_is_active := false |}.

Definition db_t1_off : State :=
  {| tenants := [t1_off]; stores := [s1; s2];
     store_api_keys := [key_s1; key_s2];
     api_key_cache := ∅; statements := []; log := []; tasks := [] |}.

Definition auth : AuthService := init_auth_service "secret".

Definition alice : UserData :=
  {| ud_user_id := "u1"; ud_tenant_id := "t1";
     ud_user_type := Some "admin"%string;
     ud_permissions := Some ["read:metrics"%string] |}.

Definition request_with (key : string) : Request :=
  {| url_path := "/v1/metrics"; method := "POST";
     authorization := Some ("Bearer " +:+ key);
     state_tenant_id := None; state_store_id := None |}.

(** A handler that answers 200. *)
Definition handler_ok (_ : Request) : M Response :=
  ret {| resp_status_code := 200; resp_detail := "ok" |}.

(** Issue a token at [t0], verify it at [t1] on a host at [offset]
    seconds from UTC. *)
Definition issue_then_verify (offset t0 t1 : Z) (st : State)
  : result Payload * State :=
  match create_access_token auth alice (host t0 offset) st with
  | (Return token, st') =>
      verify_access_token auth token (host t1 offset) st'
  | (Raise e, st') => (Raise e, st')
  end.


End Reference.

(* ================================================================== *)
(** * auth.py: FastAPI dependencies and the permission gate *)
(* ================================================================== *)

(** The module-level [auth_service] is [None] until
    [init_auth_service] has run. *)
Definition get_current_user_jwt (auth_service : option AuthService)
    (credentials : Token) : M Payload :=
  match auth_service with
  | None => raise (HTTPException 500 "Auth service not initialized")
  | Some service => verify_access_token service credentials
  end.

Definition get_current_user_api_key (auth_service : option AuthService)
    (credentials : string) : M KeyContext :=
  match auth_service with
  | None => raise (HTTPException 500 "Auth service not initialized")
  | Some _ => verify_api_key credentials
  end.

(** The inner [dependency] of [require_permissions(required_permissions)],
    applied to the user that [get_current_user_jwt] returned: the loop
    stops at the first permission that is not held. *)
Fixpoint require_permissions (required_permissions : list string)
    (current_user : Payload) : result Payload :=
  match required_permissions with
  | [] => Return current_user
  | permission :: rest =>
      if existsb (String.eqb permission) (p_permissions current_user) then
        require_permissions rest current_user
      else
        Raise (HTTPException 403
                 ("Permission denied. Required: " +:+ permission))
  end.

(** The inner [dependency] of [require_tenant_access(tenant_id)]. *)
Definition require_tenant_access (tenant_id : string) (current_user : Payload)
  : result Payload :=
  match p_tenant_id current_user with
  | Some t =>
      if String.eqb t tenant_id then Return current_user
      else Raise (HTTPException 403 ("Access denied to tenant " +:+ tenant_id))
  | None => Raise (HTTPException 403 ("Access denied to tenant " +:+ tenant_id))
  end.

(* ================================================================== *)
(** * tenant_middleware.py: request-scoped accessors *)
(* ================================================================== *)

(** [hasattr(request.state, 'tenant_id')]: the attribute exists once
    [__call__] has set it. *)
Definition get_tenant_id (request : Request) : result string :=
  match state_tenant_id request with
  | None => Raise (HTTPException 401 "No tenant context available")
  | Some tenant_id => Return tenant_id
  end.

Definition get_store_id (request : Request) : result string :=
  match state_store_id request with
  | None => Raise (HTTPException 401 "No store context available")
  | Some store_id => Return store_id
  end.

(* ================================================================== *)
(** * auth.py: dashboard users *)
(* ================================================================== *)

(** A row of [dashboard_users], after [DASHBOARD_USERS_SCHEMA]:
    [user_id] is the primary key, [tenant_id] references [tenants],
    [(email, tenant_id)] is unique, [is_active] and
    [password_change_required] default to [TRUE]. *)
Record DashboardUser : Type := {
  du_user_id : string;
  du_tenant_id : string;
  du_email : string;
  du_password_hash : string;
  du_user_type : string;
  du_permissions : list string;
  du_is_active : bool;
  du_password_change_required : bool;
  du_created_at : Z;
  du_last_login_at : option Z
}.

(** The dict returned by [create_dashboard_user]. *)
Record NewDashboardUser : Type := {
  nu_user_id : string;
  nu_tenant_id : string;
  nu_email : string;
  nu_user_type : string;
  nu_permissions : list string;
  nu_temp_password : string;
  nu_password_change_required : bool
}.

(** The dict returned by [authenticate_dashboard_user]. *)
Record AuthenticatedUser : Type := {
  au_user_id : string;
  au_tenant_id : string;
  au_email : string;
  au_user_type : string;
  au_permissions : list string;
  au_company_name : string;
  au_password_change_required : bool;
  au_last_login_at : option Z
}.

Definition _hash_password (env : Env) (password : string) : string :=
  sha256_hexdigest env password.

(** [permissions or ["read:metrics", "read:alerts"]]: [None] and the
    empty list are both falsy. *)
Definition permissions_or_default (permissions : option (list string))
  : list string :=
  match permissions with
  | Some (p :: ps) => p :: ps
  | _ => ["read:metrics"; "read:alerts"]%string
  end.

(** [WHERE email = :email AND tenant_id = :tenant_id] *)
Definition same_login (email tenant_id : string) (u : DashboardUser) : bool :=
  String.eqb (du_email u) email && String.eqb (du_tenant_id u) tenant_id.

(** [create_dashboard_user].  The [dashboard_users] table is passed in
    and handed back; when the call raises, nothing was committed and
    the table is the one passed in.  Statements on this table are not
    entered in the trace.  [temp_password] and [user_suffix]
    are the values drawn by [secrets.token_urlsafe(16)] and
    [secrets.token_urlsafe(8)].  The [INSERT] is subject to the
    primary key and to the foreign key of the schema. *)
Definition create_dashboard_user (temp_password user_suffix : string)
    (tenant_id email user_type : string) (permissions : option (list string))
    (users : list DashboardUser)
  : M (NewDashboardUser * list DashboardUser) :=
  do env <- ask;
  let password_hash := _hash_password env temp_password in
  match fetchone (List.filter (same_login email tenant_id) users) with
  | Some _ =>
      raise (HTTPException 409
               ("User " +:+ email +:+ " already exists for tenant "
                +:+ tenant_id))
  | None =>
      let user_id := "user_" +:+ tenant_id +:+ "_" +:+ user_suffix in
      do st <- get;
      if existsb (fun u => String.eqb (du_user_id u) user_id) users then
        raise (Exception "IntegrityError" "dashboard_users_pkey")
      else if negb (existsb (fun t => String.eqb (t_tenant_id t) tenant_id)
                      (tenants st)) then
        raise (Exception "IntegrityError" "dashboard_users_tenant_id_fkey")
      else
        run logger INFO
              ("Created dashboard user " +:+ email +:+ " for tenant "
               +:+ tenant_id) [];
        ret ({| nu_user_id := user_id; nu_tenant_id := tenant_id;
                nu_email := email; nu_user_type := user_type;
                nu_permissions := permissions_or_default permissions;
                nu_temp_password := temp_password;
                nu_password_change_required := true |},
             users ++
               [{| du_user_id := user_id; du_tenant_id := tenant_id;
                   du_email := email; du_password_hash := password_hash;
                   du_user_type := user_type;
                   du_permissions := permissions_or_default permissions;
                   du_is_active := true;
                   du_password_change_required := true;
                   du_created_at := posix_time env;
                   du_last_login_at := None |}])
  end.

(** [FROM dashboard_users u JOIN tenants t ON u.tenant_id = t.tenant_id
     WHERE u.email = :email AND u.password_hash = :password_hash
     AND u.is_active = TRUE] *)
Definition select_user_tenant (email password_hash : string)
    (users : list DashboardUser) (ts : list Tenant)
  : list (DashboardUser * Tenant) :=
  flat_map (fun u =>
    map (fun t => (u, t))
      (List.filter (fun t => String.eqb (du_tenant_id u) (t_tenant_id t)) ts))
    (List.filter
       (fun u => String.eqb (du_email u) email
                 && String.eqb (du_password_hash u) password_hash
                 && du_is_active u)
       users).

(** [SET last_login_at = NOW() WHERE user_id = :user_id], on one row. *)
Definition stamp_login (user_id : string) (now : Z) (u : DashboardUser)
  : DashboardUser :=
  if String.eqb (du_user_id u) user_id then
    {| du_user_id := du_user_id u; du_tenant_id := du_tenant_id u;
       du_email := du_email u; du_password_hash := du_password_hash u;
       du_user_type := du_user_type u; du_permissions := du_permissions u;
       du_is_active := du_is_active u;
       du_password_change_required := du_password_change_required u;
       du_created_at := du_created_at u;
       du_last_login_at := Some now |}
  else u.

Definition authenticate_dashboard_user (email password : string)
    (users : list DashboardUser)
  : M (AuthenticatedUser * list DashboardUser) :=
  do env <- ask;
  let password_hash := _hash_password env password in
  do st <- get;
  match fetchone (select_user_tenant email password_hash users (tenants st)) with
  | None =>
      run logger WARNING ("Failed login attempt for " +:+ email) [];
      raise (HTTPException 401 "Invalid email or password")
  | Some (u, t) =>
      if negb (t_is_active t) then
        raise (HTTPException 401 "Tenant account is inactive")
      else
        ret ({| au_user_id := du_user_id u; au_tenant_id := du_tenant_id u;
                au_email := du_email u; au_user_type := du_user_type u;
                au_permissions := du_permissions u;
                au_company_name := t_company_name t;
                au_password_change_required := du_password_change_required u;
                au_last_login_at := du_last_login_at u |},
             map (stamp_login (du_user_id u) (posix_time env)) users)
  end.

(* ================================================================== *)
(** * Further observations *)
(* ================================================================== *)

(** [old in s] *)
Fixpoint occurs (old s : string) : bool :=
  String.prefix old s
  || match s with
     | EmptyString => false
     | String _ s' => occurs old s'
     end.

(** The active keys under one digest. *)
Definition live_under (h : string) (ks : list ApiKey) : list ApiKey :=
  List.filter (fun k => String.eqb (k_key_hash k) h && k_is_active k) ks.

(** The row that [generate_api_key] inserts. *)
Definition issued_key (env : Env) (tenant_id store_id : string) : ApiKey :=
  {| k_key_id := "store_" +:+ tenant_id +:+ "_" +:+ store_id;
     k_tenant_id := tenant_id; k_store_id := store_id;
     k_key_hash :=
       sha256_hexdigest env
         ("store_" +:+ tenant_id +:+ "_" +:+ store_id +:+ "_"
          +:+ token_urlsafe env);
     k_is_active := is_active_default;
     k_created_at := posix_time env;
     k_last_used_at := None |}.

(** Store identifiers are unique within a tenant. *)
Definition store_ids_unique (ss : list Store) : Prop :=
  NoDup (map (fun s => (s_tenant_id s, s_store_id s)) ss).

(** No active tenant has more active stores than its [max_stores]. *)
Definition within_store_limits (st : State) : Prop :=
  forall tenant_id tenant,
    select_active_tenant tenant_id (tenants st) = Some tenant ->
    active_store_count tenant_id (stores st) <= t_max_stores tenant.

(** [(email, tenant_id)] is unique in [dashboard_users]. *)
Definition logins_unique (users : list DashboardUser) : Prop :=
  NoDup (map (fun u => (du_email u, du_tenant_id u)) users).

(** Everything about a key record but its [last_used_at]. *)
Definition key_identity (k : ApiKey)
  : string * string * string * string * bool * Z :=
  (k_key_id k, k_tenant_id k, k_store_id k, k_key_hash k, k_is_active k,
   k_created_at k).

(** A user table and a limits check for evaluating the code. *)
Module Scenario.

Definition bob : DashboardUser :=
  {| du_user_id := "user_t1_old"; du_tenant_id := "t1";
     du_email := "bob@acme.example";
     du_password_hash := Reference.sha256 "hunter2";
     du_user_type := "client"; du_permissions := ["read:metrics"%string];
     du_is_active := true; du_password_change_required := false;
     du_created_at := 0; du_last_login_at := Some 500 |}.

Definition users0 : list DashboardUser := [bob].

(** Tenant [t1] with both of its two stores active. *)
Definition s2_on : Store :=
  {| s_tenant_id := "t1"; s_store_id := "s2";
     s_store_name := "Norte"; s_is_active := true |}.

Definition db_full : State :=
  {| tenants := [Reference.t1]; stores := [Reference.s1; s2_on];
     store_api_keys := [Reference.key_s1];
     api_key_cache := ∅; statements := []; log := []; tasks := [] |}.

(** A database before any key was issued. *)
Definition db_no_keys : State :=
  {| tenants := [Reference.t1]; stores := [Reference.s1; Reference.s2];
     store_api_keys := [];
     api_key_cache := ∅; statements := []; log := []; tasks := [] |}.

(** The reference host on a later draw of the random source. *)
Definition host_next (now : Z) : Env :=
  {| sha256_hexdigest := Reference.sha256;
     jwt_encode := Reference.encode; jwt_decode := Reference.decode;
     token_urlsafe := "xyz789";
     posix_time := now; utc_offset := 0;
     touch_fault := None; activity_fault := None |}.

(** A cost check that leaves a mark in the log when it runs. *)
Definition check_cost_limit_mark (tenant_id : string) : M unit :=
  logger INFO ("cost check for " +:+ tenant_id) [].

End Scenario.

(* ================================================================== *)
(** * Proofs *)
(* ================================================================== *)

Ltac monad_unfold :=
  unfold bind, ret, raise, ask, get, modify, execute, logger, try_except.

Lemma fetchone_In {A} (rows : list A) (x : A) :
  fetchone rows = Some x -> In x rows.
Proof. destruct rows; simpl; [discriminate | intros [= ->]; now left]. Qed.

Lemma fetchone_None {A} (rows : list A) :
  fetchone rows = None -> rows = [].
Proof. destruct rows; simpl; [reflexivity | discriminate]. Qed.

(** ** API keys: what each path does, branch by branch *)

Section ApiKeys.

Variable env : Env.
Variable st : State.
Variable api_key : string.

Let key_hash := sha256_hexdigest env api_key.

Lemma verify_api_key_unfold :
  verify_api_key api_key env st =
  if String.eqb api_key EmptyString then
    (Raise (HTTPException 401 "API key required"), st)
  else
    let st1 := add_statement (SelectKeyTenantStore key_hash) st in
    match fetchone (select_key_tenant_store key_hash st) with
    | None =>
        (Raise (HTTPException 401 "Invalid API key"),
         add_log {| lr_level := WARNING;
                    lr_message := "Invalid API key attempt: "
                                  +:+ first16 api_key +:+ "...";
                    lr_extra := [] |} st1)
    | Some (k, t, s) =>
        if negb (t_is_active t) then
          (Raise (HTTPException 401 "Tenant account is inactive"), st1)
        else if negb (s_is_active s) then
          (Raise (HTTPException 401 "Store is inactive"), st1)
        else
          match touch_fault env with
          | Some e => (Raise e, add_statement (UpdateLastUsed key_hash) st1)
          | None =>
              (Return {| kc_tenant_id := k_tenant_id k;
                         kc_store_id := k_store_id k;
                         kc_key_id := k_key_id k;
                         kc_company_name := t_company_name t;
                         kc_store_name := s_store_name s;
                         kc_auth_type := "api_key" |},
               set_store_api_keys
                 (map (touch key_hash (posix_time env)) (store_api_keys st))
                 (add_statement (UpdateLastUsed key_hash) st1))
          end
    end.
Proof.
  unfold verify_api_key, key_hash.
  destruct (String.eqb api_key EmptyString); [reflexivity |].
  monad_unfold; simpl.
  change (select_key_tenant_store ?h (add_statement ?q st))
    with (select_key_tenant_store h st).
  destruct (fetchone _) as [[[k t] s] |]; [| reflexivity].
  destruct (t_is_active t); simpl; [| reflexivity].
  destruct (s_is_active s); simpl; [| reflexivity].
  unfold update_last_used; simpl.
  destruct (touch_fault env); reflexivity.
Qed.

Lemma lookup_api_key_unfold :
  _lookup_api_key api_key env st =
  let st1 := add_statement (SelectKeyTenant key_hash) st in
  match fetchone (select_key_tenant key_hash st) with
  | None => (Return (None, None), st1)
  | Some (k, _) =>
      match touch_fault env with
      | Some e => (Raise e, add_statement (UpdateLastUsed key_hash) st1)
      | None =>
          (Return (Some (k_tenant_id k), Some (k_store_id k)),
           set_store_api_keys
             (map (touch key_hash (posix_time env)) (store_api_keys st))
             (add_statement (UpdateLastUsed key_hash) st1))
      end
  end.
Proof.
  unfold _lookup_api_key, key_hash.
  monad_unfold; simpl.
  change (select_key_tenant ?h (add_statement ?q st))
    with (select_key_tenant h st).
  destruct (fetchone _) as [[k t] |]; [| reflexivity].
  unfold update_last_used; simpl.
  destruct (touch_fault env); reflexivity.
Qed.

Lemma select_key_tenant_store_In k t s :
  In (k, t, s) (select_key_tenant_store key_hash st) ->
  In k (store_api_keys st) /\ In t (tenants st) /\ In s (stores st)
  /\ k_key_hash k = key_hash /\ k_is_active k = true
  /\ t_tenant_id t = k_tenant_id k
  /\ s_tenant_id s = k_tenant_id k /\ s_store_id s = k_store_id k.
Proof.
  unfold select_key_tenant_store.
  rewrite in_flat_map. intros (k' & Hk & Hin).
  rewrite in_flat_map in Hin. destruct Hin as (t' & Ht & Hin).
  rewrite in_map_iff in Hin. destruct Hin as (s' & [= <- <- <-] & Hs).
  rewrite filter_In in Hk, Ht, Hs.
  destruct Hk as [Hk Hk'], Ht as [Ht Ht'], Hs as [Hs Hs'].
  apply andb_prop in Hk', Hs'.
  destruct Hk' as [Hh Ha], Hs' as [Hst Hss].
  apply String.eqb_eq in Hh, Ht', Hst, Hss.
  repeat split; auto.
Qed.

Lemma select_key_tenant_In k t :
  In (k, t) (select_key_tenant key_hash st) ->
  In k (store_api_keys st) /\ In t (tenants st)
  /\ k_key_hash k = key_hash /\ k_is_active k = true
  /\ t_tenant_id t = k_tenant_id k /\ t_is_active t = true.
Proof.
  unfold select_key_tenant.
  rewrite in_flat_map. intros (k' & Hk & Hin).
  rewrite in_map_iff in Hin. destruct Hin as (t' & [= <- <-] & Ht).
  rewrite filter_In in Hk, Ht.
  destruct Hk as [Hk Hk'], Ht as [Ht Ht'].
  apply andb_prop in Hk', Ht'.
  destruct Hk' as [Hh Ha], Ht' as [Hid Hact].
  apply String.eqb_eq in Hh, Hid.
  repeat split; auto.
Qed.

(** [AuthService.verify_api_key] succeeds only on a key, a tenant and
    a store that are all active at that moment. *)
Lemma verify_api_key_requires_all_active ctx st' :
  verify_api_key api_key env st = (Return ctx, st') ->
  exists k t s,
    In k (store_api_keys st) /\ In t (tenants st) /\ In s (stores st)
    /\ k_key_hash k = key_hash
    /\ t_tenant_id t = k_tenant_id k
    /\ s_tenant_id s = k_tenant_id k /\ s_store_id s = k_store_id k
    /\ k_is_active k = true /\ t_is_active t = true
    /\ s_is_active s = true
    /\ kc_tenant_id ctx = k_tenant_id k /\ kc_store_id ctx = k_store_id k
    /\ kc_key_id ctx = k_key_id k.
Proof.
  rewrite verify_api_key_unfold.
  destruct (String.eqb api_key EmptyString); [discriminate |]. simpl.
  destruct (fetchone _) as [[[k t] s] |] eqn:Hrow; [| discriminate].
  destruct (t_is_active t) eqn:Ht; simpl; [| discriminate].
  destruct (s_is_active s) eqn:Hs; simpl; [| discriminate].
  destruct (touch_fault env); [discriminate |].
  intros [= <- _].
  apply fetchone_In, select_key_tenant_store_In in Hrow.
  exists k, t, s. simpl. tauto.
Qed.

(** The row that the join yields has an inactive tenant. *)
Lemma verify_api_key_tenant_inactive k t s :
  api_key <> EmptyString ->
  fetchone (select_key_tenant_store key_hash st) = Some (k, t, s) ->
  t_is_active t = false ->
  fst (verify_api_key api_key env st)
  = Raise (HTTPException 401 "Tenant account is inactive").
Proof.
  intros Hne Hrow Ht. rewrite verify_api_key_unfold.
  apply String.eqb_neq in Hne. rewrite Hne. simpl.
  rewrite Hrow, Ht. reflexivity.
Qed.

(** The row that the join yields has an active tenant and an inactive
    store. *)
Lemma verify_api_key_store_inactive k t s :
  api_key <> EmptyString ->
  fetchone (select_key_tenant_store key_hash st) = Some (k, t, s) ->
  t_is_active t = true ->
  s_is_active s = false ->
  fst (verify_api_key api_key env st)
  = Raise (HTTPException 401 "Store is inactive").
Proof.
  intros Hne Hrow Ht Hs. rewrite verify_api_key_unfold.
  apply String.eqb_neq in Hne. rewrite Hne. simpl.
  rewrite Hrow, Ht, Hs. reflexivity.
Qed.

(** The middleware's lookup succeeds only on an active key of an
    active tenant; the store is not consulted. *)
Lemma lookup_api_key_requires_key_and_tenant tenant_id store_id st' :
  _lookup_api_key api_key env st = (Return (Some tenant_id, store_id), st') ->
  exists k t,
    In k (store_api_keys st) /\ In t (tenants st)
    /\ k_key_hash k = key_hash /\ t_tenant_id t = k_tenant_id k
    /\ k_is_active k = true /\ t_is_active t = true
    /\ tenant_id = k_tenant_id k /\ store_id = Some (k_store_id k).
Proof.
  rewrite lookup_api_key_unfold. simpl.
  destruct (fetchone _) as [[k t] |] eqn:Hrow; [| discriminate].
  destruct (touch_fault env); [discriminate |].
  intros [= <- <- _].
  apply fetchone_In, select_key_tenant_In in Hrow.
  exists k, t. tauto.
Qed.

End ApiKeys.


Lemma last_used_updates_add_update h st :
  last_used_updates (add_statement (UpdateLastUsed h) st)
  = last_used_updates st + 1.
Proof.
  unfold last_used_updates. simpl.
  rewrite List.filter_app, List.length_app. simpl. lia.
Qed.

Lemma last_used_updates_add_other q st :
  is_update_last_used q = false ->
  last_used_updates (add_statement q st) = last_used_updates st.
Proof.
  intros Hq. unfold last_used_updates. simpl.
  rewrite List.filter_app, List.length_app. simpl. rewrite Hq. simpl. lia.
Qed.

Lemma key_lookups_add_lookup q st :
  is_key_lookup q = true ->
  key_lookups (add_statement q st) = key_lookups st + 1.
Proof.
  intros Hq. unfold key_lookups. simpl.
  rewrite List.filter_app, List.length_app. simpl. rewrite Hq. simpl. lia.
Qed.

Lemma key_lookups_add_other q st :
  is_key_lookup q = false ->
  key_lookups (add_statement q st) = key_lookups st.
Proof.
  intros Hq. unfold key_lookups. simpl.
  rewrite List.filter_app, List.length_app. simpl. rewrite Hq. simpl. lia.
Qed.

(** Without a fault of the store, [verify_api_key] fails in exactly
    four ways. *)
Lemma verify_api_key_failures api_key env st e st' :
  touch_fault env = None ->
  verify_api_key api_key env st = (Raise e, st') ->
  In e [HTTPException 401 "API key required";
        HTTPException 401 "Invalid API key";
        HTTPException 401 "Tenant account is inactive";
        HTTPException 401 "Store is inactive"].
Proof.
  intros Hok. rewrite verify_api_key_unfold.
  destruct (String.eqb api_key EmptyString); [intros [= <- _]; simpl; tauto |].
  simpl.
  destruct (fetchone _) as [[[k t] s] |]; [| intros [= <- _]; simpl; tauto].
  destruct (t_is_active t); simpl; [| intros [= <- _]; simpl; tauto].
  destruct (s_is_active s); simpl; [| intros [= <- _]; simpl; tauto].
  rewrite Hok. discriminate.
Qed.

Ltac trace_count :=
  unfold last_used_updates, key_lookups; simpl;
  rewrite ?List.filter_app, ?List.length_app; simpl; lia.

Ltac unchanged :=
  simpl; repeat split; auto; try discriminate; intros; trace_count.

(** What does hold of failed verifications.  Whenever a run fails, on
    either path ([AuthService.verify_api_key] raises; the middleware's
    [_lookup_api_key] returns [(None, None)] or raises), the table of
    key records, and with it every [last_used_at], is what it was
    before the call; and unless the failure is a fault of the
    timestamp update itself, no such update was even issued.  The
    middleware's lookup, however, does not fail for the key of an
    inactive store, which is the case taken up next. *)
Theorem failed_verification_keeps_key_records
    (api_key : string) (env : Env) (st st' : State) :
  (exists e, verify_api_key api_key env st = (Raise e, st'))
  \/ _lookup_api_key api_key env st = (Return (None, None), st')
  \/ (exists e, _lookup_api_key api_key env st = (Raise e, st')) ->
  store_api_keys st' = store_api_keys st
  /\ tenants st' = tenants st /\ stores st' = stores st
  /\ (touch_fault env = None ->
      last_used_updates st' = last_used_updates st).
Proof.
  intros [[e H] | [H | [e H]]].
  - rewrite verify_api_key_unfold in H.
    destruct (String.eqb api_key EmptyString).
    { injection H as _ <-. unchanged. }
    simpl in H.
    destruct (fetchone _) as [[[k t] s] |].
    2:{ injection H as _ <-. unchanged. }
    destruct (t_is_active t); simpl in H.
    2:{ injection H as _ <-. unchanged. }
    destruct (s_is_active s); simpl in H.
    2:{ injection H as _ <-. unchanged. }
    destruct (touch_fault env); [| discriminate].
    injection H as _ <-. unchanged.
  - rewrite lookup_api_key_unfold in H. simpl in H.
    destruct (fetchone _) as [[k t] |].
    + destruct (touch_fault env); discriminate.
    + injection H as <-. unchanged.
  - rewrite lookup_api_key_unfold in H. simpl in H.
    destruct (fetchone _) as [[k t] |]; [| discriminate].
    destruct (touch_fault env); [| discriminate].
    injection H as _ <-. unchanged.
Qed.

Lemma failed_verification_keeps_key_records_witness :
  let st' := snd (verify_api_key "store_t1_s2_def456"
                    (Reference.host 1000 0) Reference.db0) in
  store_api_keys st' = store_api_keys Reference.db0
  /\ tenants st' = tenants Reference.db0
  /\ stores st' = stores Reference.db0
  /\ (touch_fault (Reference.host 1000 0) = None ->
      last_used_updates st' = last_used_updates Reference.db0).
Proof.
  apply (failed_verification_keeps_key_records
           "store_t1_s2_def456" (Reference.host 1000 0) Reference.db0).
  left. exists (HTTPException 401 "Store is inactive"). reflexivity.
Defined.

(** C10 (the code departs from the claim).  The claim counts an
    inactive store among the failures that leave the key records
    alone, on both paths.  [AuthService.verify_api_key] does refuse
    the active key of the deactivated store [s2] and writes nothing.
    The request pipeline's [_lookup_api_key] never reads [stores]: for
    the same key it issues the [last_used_at] update without the store
    check having been made, and the record of that key comes out
    stamped with the time of the call. *)
Theorem pipeline_stamps_key_of_inactive_store :
  let key := "store_t1_s2_def456"%string in
  let env := Reference.host 1000 0 in
  let by_service := verify_api_key key env Reference.db0 in
  let by_pipeline := _lookup_api_key key env Reference.db0 in
  In Reference.s2 (stores Reference.db0)
  /\ s_is_active Reference.s2 = false
  /\ store_api_keys Reference.db0 = [Reference.key_s1; Reference.key_s2]
  /\ k_store_id Reference.key_s2 = "s2"%string
  /\ k_key_hash Reference.key_s2 = sha256_hexdigest env key
  /\ k_last_used_at Reference.key_s2 = None
  /\ fst by_service = Raise (HTTPException 401 "Store is inactive")
  /\ store_api_keys (snd by_service) = store_api_keys Reference.db0
  /\ last_used_updates (snd by_service) = last_used_updates Reference.db0
  /\ fst by_pipeline = Return (Some "t1"%string, Some "s2"%string)
  /\ last_used_updates (snd by_pipeline)
     = last_used_updates Reference.db0 + 1
  /\ map k_last_used_at (store_api_keys (snd by_pipeline))
     = [None; Some 1000]
  /\ store_api_keys (snd by_pipeline) <> store_api_keys Reference.db0.
Proof. vm_compute. repeat split; auto. discriminate. Qed.

(** C1 (the code departs from the claim).  [AuthService.verify_api_key]
    refuses a key whose store has been deactivated, but the request
    pipeline's [_lookup_api_key] never joins [stores]: for the active
    key of the deactivated store [s2] it resolves the tenant context,
    caches it and lets the request through to the handler. *)
Theorem lookup_api_key_ignores_store_liveness :
  let key := "store_t1_s2_def456"%string in
  let env := Reference.host 1000 0 in
  In Reference.s2 (stores Reference.db0)
  /\ s_is_active Reference.s2 = false
  /\ fst (verify_api_key key env Reference.db0)
     = Raise (HTTPException 401 "Store is inactive")
  /\ fst (_lookup_api_key key env Reference.db0)
     = Return (Some "t1"%string, Some "s2"%string)
  /\ fst (_extract_tenant_context (Reference.request_with key) env
            Reference.db0)
     = Return (Some "t1"%string, Some "s2"%string)
  /\ fst (__call__ Reference.handler_ok (Reference.request_with key) env
            Reference.db0)
     = Return {| resp_status_code := 200; resp_detail := "ok" |}.
Proof. vm_compute. repeat split; auto. Qed.




(** ** Session tokens *)

Section Tokens.

Variable self : AuthService.
Variable env : Env.

(** Whatever the token library does, an exception leaves
    [verify_access_token] through one of its two [except] clauses:
    the caller sees a 401 whose detail is either the library's
    message behind ["Invalid token: "] or the fixed text of the
    catch-all clause.  The [HTTPException]s raised inside the [try]
    block are caught by that clause as well. *)
Lemma verify_access_token_errors token st e st' :
  verify_access_token self token env st = (Raise e, st') ->
  e = HTTPException 401 "Token verification failed"
  \/ exists m, e = HTTPException 401 ("Invalid token: " +:+ m).
Proof.
  unfold verify_access_token, try_except.
  destruct (verify_access_token_body self token env st) as [[p | e0] st0];
    [discriminate |].
  unfold verify_access_token_except.
  destruct (is_InvalidTokenError e0); monad_unfold; simpl.
  - intros [= <- _]. right. eauto.
  - intros [= <- _]. now left.
Qed.

Lemma verify_access_token_never_token_expired token st :
  fst (verify_access_token self token env st)
  <> Raise (HTTPException 401 "Token expired").
Proof.
  destruct (verify_access_token self token env st) as [[p | e] st'] eqn:H;
    simpl; [discriminate |].
  apply verify_access_token_errors in H.
  destruct H as [-> | [m ->]]; discriminate.
Qed.

Lemma verify_access_token_never_tenant_inactive token st :
  fst (verify_access_token self token env st)
  <> Raise (HTTPException 401 "Tenant inactive or not found").
Proof.
  destruct (verify_access_token self token env st) as [[p | e] st'] eqn:H;
    simpl; [discriminate |].
  apply verify_access_token_errors in H.
  destruct H as [-> | [m ->]]; discriminate.
Qed.

(** What does hold of the tenant check: a token that decodes, passes
    the expiry comparison and names a tenant that is absent or
    inactive is rejected with a 401, after the lookup has been made;
    the reason only reaches the log. *)
Lemma verify_access_token_rejects_inactive_tenant
    token st payload exp tenant_id :
  jwt_decode env token (jwt_secret self) [jwt_algorithm self]
    (posix_time env) = Return payload ->
  p_exp payload = Some exp ->
  utcnow env <= fromtimestamp env exp ->
  p_tenant_id payload = Some tenant_id ->
  tenant_id <> EmptyString ->
  (forall t, fetchone (List.filter
               (fun t => String.eqb (t_tenant_id t) tenant_id) (tenants st))
             = Some t -> t_is_active t = false) ->
  verify_access_token self token env st
  = (Raise (HTTPException 401 "Token verification failed"),
     add_log {| lr_level := ERROR;
                lr_message :=
                  "Token verification error: 401: Tenant inactive or not found";
                lr_extra := [] |}
       (add_statement (SelectTenantIsActive tenant_id) st)).
Proof.
  intros Hdec Hexp Hnow Hten Hne Hoff.
  unfold verify_access_token, try_except, verify_access_token_body.
  monad_unfold. rewrite Hdec, Hexp, Hten.
  destruct (utcnow env >? fromtimestamp env exp) eqn:Hgt; [lia |].
  apply String.eqb_neq in Hne. simpl. rewrite Hne. simpl.
  unfold _verify_tenant_active. monad_unfold. simpl.
  destruct (fetchone _) as [t |] eqn:Hrow; simpl.
  - rewrite (Hoff t eq_refl). reflexivity.
  - reflexivity.
Qed.

(** What does hold of the round trip: on a host whose local time is
    not behind UTC, with a token library that honours
    [jwt_round_trip], a token verified no earlier than it was issued
    and before its expiry, for a tenant that is active, comes back as
    the claims that were signed. *)
Lemma verify_access_token_round_trip user_data st t0 t1 tenant :
  jwt_round_trip env ->
  0 <= utc_offset env ->
  t0 <= t1 ->
  t1 < t0 + access_token_expire_minutes self * 60 ->
  fetchone (List.filter
    (fun t => String.eqb (t_tenant_id t) (ud_tenant_id user_data))
    (tenants st)) = Some tenant ->
  t_is_active tenant = true ->
  exists token st',
    create_access_token self user_data (at_time t0 env) st
    = (Return token, st)
    /\ verify_access_token self token (at_time t1 env) st
       = (Return (access_token_payload self user_data (at_time t0 env)), st').
Proof.
  intros Hrt Hoff Hle Hlt Hrow Hact.
  exists (jwt_encode env (access_token_payload self user_data (at_time t0 env))
            (jwt_secret self) (jwt_algorithm self)).
  assert (Hgt : (t1 >? t0 + access_token_expire_minutes self * 60
                         + utc_offset env) = false) by lia.
  destruct (String.eqb (ud_tenant_id user_data) EmptyString) eqn:Hempty;
    eexists; (split; [reflexivity |]);
    unfold verify_access_token, try_except, verify_access_token_body;
    monad_unfold; simpl;
    (rewrite Hrt by
       (simpl; try (intros exp [= <-]); unfold utcnow; simpl; lia));
    simpl; unfold utcnow, fromtimestamp; simpl; rewrite Hgt, Hempty; simpl.
  - reflexivity.
  - unfold _verify_tenant_active. monad_unfold. simpl.
    rewrite Hrow. simpl. rewrite Hact. simpl. reflexivity.
Qed.

End Tokens.

(** The reference token library honours the contract. *)
Lemma reference_round_trip now offset :
  jwt_round_trip (Reference.host now offset).
Proof.
  intros payload key alg t Hiat Hexp. simpl.
  unfold Reference.decode, Reference.encode. simpl.
  rewrite String.eqb_refl. simpl.
  destruct (t <? p_iat payload) eqn:Hearly; [lia |].
  destruct (p_exp payload) as [exp |]; [| reflexivity].
  specialize (Hexp exp eq_refl).
  destruct (exp <=? t) eqn:Hle; [lia | reflexivity].
Qed.

(** C2 (the code departs from the claim).  The liveness lookup is made
    and the token of the deactivated tenant is rejected, but not with
    the tenant-inactive error: the [HTTPException] raised for it is
    caught by the [except Exception] clause of the same function, so
    the caller gets the catch-all ["Token verification failed"] and
    the reason goes to the log only.  No input makes
    [verify_access_token] raise the tenant-inactive error. *)
Theorem verify_access_token_masks_tenant_inactive :
  (let '(r, st') :=
     Reference.issue_then_verify 0 1000 1010 Reference.db_t1_off in
   r = Raise (HTTPException 401 "Token verification failed")
   /\ statements st' = [SelectTenantIsActive "t1"]
   /\ log st' =
      [{| lr_level := ERROR;
          lr_message :=
            "Token verification error: 401: Tenant inactive or not found";
          lr_extra := [] |}])
  /\ forall self token env st,
       fst (verify_access_token self token env st)
       <> Raise (HTTPException 401 "Tenant inactive or not found").
Proof.
  split.
  - vm_compute. repeat split; reflexivity.
  - intros. apply verify_access_token_never_tenant_inactive.
Qed.

(** C3 (the code departs from the claim).  The expiry comparison sets
    [datetime.utcnow()] against [datetime.fromtimestamp(exp)], which is
    local time.  On a host four hours behind UTC a token issued ten
    seconds earlier for an active tenant, which the library accepts,
    is rejected; on a host at UTC the same token comes back with its
    claims. *)
Theorem issue_then_verify_fails_west_of_utc :
  fst (Reference.issue_then_verify (-14400) 1000 1010 Reference.db0)
  = Raise (HTTPException 401 "Token verification failed")
  /\ fst (Reference.issue_then_verify 0 1000 1010 Reference.db0)
     = Return (access_token_payload Reference.auth Reference.alice
                 (Reference.host 1000 0))
  /\ In Reference.t1 (tenants Reference.db0)
  /\ t_is_active Reference.t1 = true.
Proof. vm_compute. repeat split; auto. Qed.

(** C4 (the code departs from the claim).  A token issued at [T0 = 1000]
    for sixty minutes and verified at [T0 + 3601] is rejected by the
    library, whose [ExpiredSignatureError] is an [InvalidTokenError]:
    the caller gets the invalid-token error.  The function's own
    ["Token expired"] error is raised inside the [try] block and caught
    by [except Exception]; no input makes [verify_access_token] raise
    it. *)
Theorem verify_access_token_has_no_token_expired_error :
  fst (Reference.issue_then_verify 0 1000 (1000 + 3601) Reference.db0)
  = Raise (HTTPException 401 "Invalid token: Signature has expired")
  /\ forall self token env st,
       fst (verify_access_token self token env st)
       <> Raise (HTTPException 401 "Token expired").
Proof.
  split.
  - vm_compute. reflexivity.
  - intros. apply verify_access_token_never_token_expired.
Qed.

(** The expiry check of the function itself fares like the tenant
    check: when the library lets the token through and the comparison
    finds it expired, the caller gets the catch-all error. *)
Lemma verify_access_token_masks_token_expired
    self env token st payload exp :
  jwt_decode env token (jwt_secret self) [jwt_algorithm self]
    (posix_time env) = Return payload ->
  p_exp payload = Some exp ->
  fromtimestamp env exp < utcnow env ->
  verify_access_token self token env st
  = (Raise (HTTPException 401 "Token verification failed"),
     add_log {| lr_level := ERROR;
                lr_message := "Token verification error: 401: Token expired";
                lr_extra := [] |} st).
Proof.
  intros Hdec Hexp Hlt.
  unfold verify_access_token, try_except, verify_access_token_body.
  monad_unfold. rewrite Hdec, Hexp.
  destruct (utcnow env >? fromtimestamp env exp) eqn:Hgt; [| lia].
  reflexivity.
Qed.

(** ** The cache in front of the lookup *)

Lemma extract_tenant_context_unfold request env st :
  _extract_tenant_context request env st =
  if negb (String.prefix "Bearer " (default EmptyString (authorization request)))
  then (Return (None, None), st)
  else if String.eqb (bearer_key request) EmptyString then (Return (None, None), st)
  else
    let cache_key := sha256_hexdigest env (bearer_key request) in
    match cache_hit (utcnow env) (api_key_cache st !! cache_key) with
    | Some c => (Return (ce_tenant_id c, ce_store_id c), st)
    | None =>
        match _lookup_api_key (bearer_key request) env st with
        | (Return (tenant_id, store_id), st1) =>
            (Return (tenant_id, store_id),
             if truthy tenant_id then
               set_api_key_cache
                 (<[cache_key :=
                      {| ce_tenant_id := tenant_id;
                         ce_store_id := store_id;
                         ce_expires := utcnow env + cache_ttl |}]>
                    (api_key_cache st1)) st1
             else st1)
        | (Raise e, st1) => (Raise e, st1)
        end
    end.
Proof.
  unfold _extract_tenant_context, bearer_key.
  destruct (negb _); [reflexivity |].
  destruct (String.eqb _ EmptyString); [reflexivity |].
  unfold bind at 1. unfold ask at 1. unfold bind at 1. unfold get at 1.
  simpl.
  destruct (cache_hit _ _); [reflexivity |].
  unfold bind at 1.
  destruct (_lookup_api_key _ env st) as [[[tenant_id store_id] | e] st1];
    [| reflexivity].
  destruct (truthy tenant_id); reflexivity.
Qed.







(** ** The request pipeline after resolution *)

(** The deferred quota check never raises: whatever the limits service
    does, [_validate_tenant_limits] returns normally, and a failure of
    the store-limit check ends up as one warning in the log. *)
Lemma validate_tenant_limits_returns
    (validate check : string -> M unit) tenant_id env st :
  fst (_validate_tenant_limits validate check tenant_id env st) = Return tt.
Proof.
  unfold _validate_tenant_limits, try_except, bind, ask.
  destruct (validate tenant_id env st) as [[[] | e] st1]; simpl.
  - destruct (_ =? 0).
    + destruct (check tenant_id env st1) as [[[] | e] st2]; reflexivity.
    + reflexivity.
  - reflexivity.
Qed.

Lemma validate_tenant_limits_logs
    (validate check : string -> M unit) tenant_id env st e st1 :
  validate tenant_id env st = (Raise e, st1) ->
  _validate_tenant_limits validate check tenant_id env st
  = (Return tt,
     add_log {| lr_level := WARNING;
                lr_message := "Tenant limits validation failed for "
                              +:+ tenant_id +:+ ": " +:+ str_exn e;
                lr_extra := [] |} st1).
Proof.
  intros H. unfold _validate_tenant_limits, try_except, bind.
  rewrite H. reflexivity.
Qed.




(** ** Key rotation *)

Lemma same_store_deactivate tenant_id store_id k :
  same_store tenant_id store_id (deactivate k) = same_store tenant_id store_id k.
Proof. reflexivity. Qed.

(** After the [UPDATE], the pair has no active key left. *)
Lemma active_keys_deactivate_keys tenant_id store_id ks :
  active_keys tenant_id store_id (deactivate_keys tenant_id store_id ks) = [].
Proof.
  unfold active_keys, deactivate_keys.
  induction ks as [| k ks IH]; simpl; [reflexivity |].
  destruct (same_store tenant_id store_id k) eqn:Hk; simpl.
  - rewrite andb_false_r. exact IH.
  - rewrite Hk. simpl. exact IH.
Qed.

Lemma same_store_other tenant_id store_id tenant_id' store_id' k :
  (tenant_id', store_id') <> (tenant_id, store_id) ->
  same_store tenant_id' store_id' k = true ->
  same_store tenant_id store_id k = false.
Proof.
  unfold same_store. intros Hne H'.
  apply andb_prop in H'. destruct H' as [Ht Hs].
  apply String.eqb_eq in Ht, Hs.
  destruct (String.eqb (k_tenant_id k) tenant_id) eqn:Et; [| reflexivity].
  destruct (String.eqb (k_store_id k) store_id) eqn:Es; [| reflexivity].
  apply String.eqb_eq in Et, Es. congruence.
Qed.

(** The [UPDATE] leaves the rows of every other pair as they are. *)
Lemma other_keys_deactivate_keys tenant_id store_id tenant_id' store_id' ks :
  (tenant_id', store_id') <> (tenant_id, store_id) ->
  List.filter (same_store tenant_id' store_id')
    (deactivate_keys tenant_id store_id ks)
  = List.filter (same_store tenant_id' store_id') ks.
Proof.
  intros Hne. unfold deactivate_keys.
  induction ks as [| k ks IH]; simpl; [reflexivity |].
  destruct (same_store tenant_id store_id k) eqn:Hk.
  - rewrite same_store_deactivate.
    destruct (same_store tenant_id' store_id' k) eqn:Hk'.
    + rewrite (same_store_other _ _ _ _ _ Hne Hk') in Hk. discriminate.
    + exact IH.
  - destruct (same_store tenant_id' store_id' k); [f_equal |]; exact IH.
Qed.

Lemma active_keys_as_filter tenant_id store_id ks :
  active_keys tenant_id store_id ks
  = List.filter k_is_active (List.filter (same_store tenant_id store_id) ks).
Proof.
  unfold active_keys. induction ks as [| k ks IH]; simpl; [reflexivity |].
  destruct (same_store tenant_id store_id k); simpl.
  - destruct (k_is_active k); [f_equal |]; exact IH.
  - exact IH.
Qed.

Lemma In_deactivate_keys tenant_id store_id ks k :
  In k ks -> same_store tenant_id store_id k = true ->
  In (deactivate k) (deactivate_keys tenant_id store_id ks).
Proof.
  intros Hin Hk. unfold deactivate_keys.
  apply in_map_iff. exists k. rewrite Hk. auto.
Qed.

(** The key table after the [UPDATE] and the [INSERT] of a rotation. *)
Section Rotation.

Variables tenant_id store_id : string.
Variable ks : list ApiKey.
Variable new_key : ApiKey.
Hypothesis new_key_pair : same_store tenant_id store_id new_key = true.
Hypothesis new_key_active : k_is_active new_key = true.

Let rotated := deactivate_keys tenant_id store_id ks ++ [new_key].

Lemma active_keys_rotated :
  active_keys tenant_id store_id rotated = [new_key].
Proof.
  unfold rotated, active_keys. rewrite List.filter_app.
  fold (active_keys tenant_id store_id (deactivate_keys tenant_id store_id ks)).
  rewrite active_keys_deactivate_keys. simpl.
  now rewrite new_key_pair, new_key_active.
Qed.

Lemma other_keys_rotated tenant_id' store_id' :
  (tenant_id', store_id') <> (tenant_id, store_id) ->
  List.filter (same_store tenant_id' store_id') rotated
  = List.filter (same_store tenant_id' store_id') ks.
Proof.
  intros Hne. unfold rotated.
  rewrite List.filter_app, other_keys_deactivate_keys by assumption. simpl.
  destruct (same_store tenant_id' store_id' new_key) eqn:Hk'.
  - rewrite (same_store_other _ _ _ _ _ Hne Hk') in new_key_pair.
    discriminate.
  - apply app_nil_r.
Qed.

Lemma one_active_key_rotated :
  one_active_key_per_store ks -> one_active_key_per_store rotated.
Proof.
  intros Hinv t' s'.
  destruct (decide ((t', s') = (tenant_id, store_id))) as [[= -> ->] | Hne].
  - rewrite active_keys_rotated. simpl. lia.
  - rewrite active_keys_as_filter, other_keys_rotated, <- active_keys_as_filter
      by assumption.
    apply Hinv.
Qed.

End Rotation.

(** What [generate_api_key] does to the three tables. *)
Lemma generate_api_key_tables tenant_id store_id env st r st' :
  generate_api_key tenant_id store_id env st = (r, st') ->
  tenants st' = tenants st /\ stores st' = stores st
  /\ ((exists detail, r = Raise (HTTPException 404 detail))
      /\ store_api_keys st' = store_api_keys st
      /\ fetchone (List.filter
           (fun s => String.eqb (s_tenant_id s) tenant_id
                     && String.eqb (s_store_id s) store_id
                     && s_is_active s) (stores st)) = None
      \/ exists response new_key,
           r = Return response
           /\ store_api_keys st'
              = deactivate_keys tenant_id store_id (store_api_keys st)
                ++ [new_key]
           /\ same_store tenant_id store_id new_key = true
           /\ k_is_active new_key = true
           /\ k_key_hash new_key
              = sha256_hexdigest env (ar_api_key response)).
Proof.
  unfold generate_api_key. monad_unfold. simpl.
  destruct (fetchone _) as [s0 |] eqn:Hrow; simpl; intros [= <- <-]; simpl.
  - split; [reflexivity |]. split; [reflexivity |]. right.
    eexists. eexists. split; [reflexivity |]. split; [reflexivity |].
    simpl. unfold same_store. simpl. now rewrite !String.eqb_refl.
  - split; [reflexivity |]. split; [reflexivity |]. left. eauto.
Qed.

(** C7.  For a pair whose store exists and is active, [generate_api_key]
    succeeds and: every key the pair had is still there, deactivated;
    one new key is added, active, bound to the pair and stored under
    the digest of the secret that is returned; the pair's active keys
    are exactly that one; the rows of every other pair are unchanged;
    and if no pair had more than one active key before, none has
    after. *)
Theorem generate_api_key_rotates
    (env : Env) (st : State) (tenant_id store_id : string) (store : Store) :
  In store (stores st) ->
  s_tenant_id store = tenant_id ->
  s_store_id store = store_id ->
  s_is_active store = true ->
  exists response st' new_key,
    generate_api_key tenant_id store_id env st = (Return response, st')
    /\ (forall k, In k (store_api_keys st) ->
                  same_store tenant_id store_id k = true ->
                  In (deactivate k) (store_api_keys st')
                  /\ k_is_active (deactivate k) = false)
    /\ length (store_api_keys st') = S (length (store_api_keys st))
    /\ k_tenant_id new_key = tenant_id /\ k_store_id new_key = store_id
    /\ k_key_hash new_key = sha256_hexdigest env (ar_api_key response)
    /\ active_keys tenant_id store_id (store_api_keys st') = [new_key]
    /\ (forall tenant_id' store_id',
          (tenant_id', store_id') <> (tenant_id, store_id) ->
          List.filter (same_store tenant_id' store_id') (store_api_keys st')
          = List.filter (same_store tenant_id' store_id') (store_api_keys st))
    /\ (one_active_key_per_store (store_api_keys st) ->
        one_active_key_per_store (store_api_keys st'))
    /\ tenants st' = tenants st /\ stores st' = stores st.
Proof.
  intros Hin Ht Hs Hact.
  destruct (generate_api_key tenant_id store_id env st) as [r st'] eqn:Hrun.
  destruct (generate_api_key_tables _ _ _ _ _ _ Hrun)
    as (Htenants & Hstores & [(_ & _ & Hnone) | Hok]).
  - (* the store is there, so the first query has a row *)
    apply fetchone_None in Hnone.
    assert (Hf : In store (List.filter
      (fun s => String.eqb (s_tenant_id s) tenant_id
                && String.eqb (s_store_id s) store_id
                && s_is_active s) (stores st))).
    { apply filter_In. split; [assumption |].
      now rewrite Ht, Hs, Hact, !String.eqb_refl. }
    rewrite Hnone in Hf. destruct Hf.
  - destruct Hok as (response & new_key & -> & Hkeys & Hpair & Hnew & Hhash).
    exists response, st', new_key. split; [reflexivity |].
    rewrite Hkeys.
    pose proof Hpair as Hids. unfold same_store in Hids.
    apply andb_prop in Hids. destruct Hids as [Hid1 Hid2].
    apply String.eqb_eq in Hid1, Hid2.
    repeat split; auto.
    + apply in_or_app. left. now apply In_deactivate_keys.
    + unfold deactivate_keys.
      rewrite List.length_app, List.length_map. simpl. lia.
    + now apply active_keys_rotated.
    + intros t' s' Hne. now apply other_keys_rotated.
    + now apply one_active_key_rotated.
Qed.

Lemma generate_api_key_rotates_witness :
  exists response st' new_key,
    generate_api_key "t1" "s1" (Reference.host 1000 0) Reference.db0
    = (Return response, st')
    /\ active_keys "t1" "s1" (store_api_keys st') = [new_key]
    /\ List.filter (same_store "t1" "s2") (store_api_keys st')
       = [Reference.key_s2].
Proof.
  destruct (generate_api_key_rotates
              (Reference.host 1000 0) Reference.db0 "t1" "s1" Reference.s1
              (or_introl eq_refl) eq_refl eq_refl eq_refl)
    as (response & st' & new_key & Hrun & _ & _ & _ & _ & _ & Hone & Hframe & _).
  exists response, st', new_key.
  split; [exact Hrun |]. split; [exact Hone |].
  rewrite (Hframe "t1"%string "s2"%string) by discriminate.
  reflexivity.
Defined.

(** *** The invariant of the key table *)

(** Rewriting rows in place cannot add an active key to a pair, as long
    as rows stay with their pair and no row is activated. *)
Lemma active_keys_map_le (f : ApiKey -> ApiKey) tenant_id store_id ks :
  (forall k, same_store tenant_id store_id (f k)
             = same_store tenant_id store_id k) ->
  (forall k, k_is_active (f k) = true -> k_is_active k = true) ->
  (length (active_keys tenant_id store_id (map f ks))
   <= length (active_keys tenant_id store_id ks))%nat.
Proof.
  intros Hpair Hact. unfold active_keys.
  induction ks as [| k ks IH]; simpl; [lia |].
  rewrite Hpair.
  destruct (same_store tenant_id store_id k); simpl; [| exact IH].
  destruct (k_is_active (f k)) eqn:Hf; simpl.
  - rewrite (Hact k Hf). simpl. lia.
  - destruct (k_is_active k); simpl; lia.
Qed.

Lemma one_active_key_map (f : ApiKey -> ApiKey) ks :
  (forall tenant_id store_id k,
      same_store tenant_id store_id (f k) = same_store tenant_id store_id k) ->
  (forall k, k_is_active (f k) = true -> k_is_active k = true) ->
  one_active_key_per_store ks -> one_active_key_per_store (map f ks).
Proof.
  intros Hpair Hact Hinv t s.
  pose proof (active_keys_map_le f t s ks (Hpair t s) Hact).
  specialize (Hinv t s). lia.
Qed.

Lemma one_active_key_touch h now ks :
  one_active_key_per_store ks -> one_active_key_per_store (map (touch h now) ks).
Proof.
  apply one_active_key_map; intros; unfold touch in *;
    destruct (String.eqb _ h); auto.
Qed.

Lemma key_table_step_invariant st st' :
  key_table_step st st' ->
  one_active_key_per_store (store_api_keys st) ->
  one_active_key_per_store (store_api_keys st').
Proof.
  intros [tenant_id store_id env r H | tenant_id key_id env r H
          | api_key env r H | api_key env r H] Hinv.
  - destruct (generate_api_key_tables _ _ _ _ _ _ H)
      as (_ & _ & [(_ & -> & _) | (resp & new_key & _ & -> & Hp & Ha & _)]).
    + exact Hinv.
    + now apply one_active_key_rotated.
  - unfold revoke_api_key, bind, raise, get, modify, execute, logger in H.
    simpl in H.
    destruct (fetchone _); injection H as _ <-; simpl; [| exact Hinv].
    apply one_active_key_map; [| | exact Hinv]; intros;
      destruct (_ && _); auto; discriminate.
  - rewrite verify_api_key_unfold in H.
    destruct (String.eqb api_key EmptyString);
      [injection H as _ <-; exact Hinv |].
    simpl in H. destruct (fetchone _) as [[[k t] s] |];
      [| injection H as _ <-; exact Hinv].
    destruct (t_is_active t); simpl in H; [| injection H as _ <-; exact Hinv].
    destruct (s_is_active s); simpl in H; [| injection H as _ <-; exact Hinv].
    destruct (touch_fault env); injection H as _ <-; simpl;
      [exact Hinv | now apply one_active_key_touch].
  - rewrite lookup_api_key_unfold in H. simpl in H.
    destruct (fetchone _) as [[k t] |]; [| injection H as _ <-; exact Hinv].
    destruct (touch_fault env); injection H as _ <-; simpl;
      [exact Hinv | now apply one_active_key_touch].
Qed.

(** Starting from an empty key table, issuing, revoking and verifying
    keys never leaves a pair with two active keys. *)
Lemma reachable_one_active_key st :
  reachable st -> one_active_key_per_store (store_api_keys st).
Proof.
  induction 1 as [st Hempty | st st' _ IH Hstep].
  - intros t s. rewrite Hempty. simpl. lia.
  - now apply (key_table_step_invariant st st').
Qed.

(** ** The store limit *)

Lemma active_store_count_app tenant_id ss ss' :
  active_store_count tenant_id (ss ++ ss')
  = active_store_count tenant_id ss + active_store_count tenant_id ss'.
Proof.
  unfold active_store_count.
  rewrite List.filter_app, List.length_app. lia.
Qed.

Lemma select_store_app_new tenant_id store_id ss row :
  select_store tenant_id store_id ss = None ->
  s_tenant_id row = tenant_id -> s_store_id row = store_id ->
  select_store tenant_id store_id (ss ++ [row]) = Some row.
Proof.
  unfold select_store. intros Hnone Ht Hs.
  apply fetchone_None in Hnone.
  rewrite List.filter_app, Hnone. simpl.
  rewrite Ht, Hs, !String.eqb_refl. reflexivity.
Qed.

Section StoreLimit.

Variable env : Env.
Variable st : State.
Variable tenant_id : string.
Variable tenant : Tenant.
Hypothesis tenant_is_active :
  select_active_tenant tenant_id (tenants st) = Some tenant.

Let store_count := active_store_count tenant_id (stores st).

Lemma validate_store_limit_unfold :
  fst (validate_store_limit tenant_id env st) =
  if store_count >=? t_max_stores tenant then
    Raise (HTTPException 429
             ("Store limit exceeded: " +:+ pretty store_count +:+ "/"
              +:+ pretty (t_max_stores tenant)))
  else Return tt.
Proof.
  unfold validate_store_limit, store_count. monad_unfold. simpl.
  rewrite tenant_is_active. simpl.
  destruct (_ >=? _); reflexivity.
Qed.

Lemma create_store_at_limit store :
  t_max_stores tenant <= store_count ->
  create_store tenant_id store env st
  = (Raise (HTTPException 409
              ("Store limit reached: " +:+ pretty store_count +:+ "/"
               +:+ pretty (t_max_stores tenant))),
     add_statement (CountActiveStores tenant_id)
       (add_statement (SelectTenantLimits tenant_id) st)).
Proof.
  intros Hfull. unfold create_store, store_count in *. monad_unfold. simpl.
  rewrite tenant_is_active. simpl.
  destruct (_ >=? _) eqn:Hge; [reflexivity | lia].
Qed.

Lemma create_store_below_limit store :
  store_count < t_max_stores tenant ->
  select_store tenant_id (sc_store_id store) (stores st) = None ->
  exists st',
    create_store tenant_id store env st
    = (Return {| s_tenant_id := tenant_id;
                 s_store_id := sc_store_id store;
                 s_store_name := sc_store_name store;
                 s_is_active := true |}, st')
    /\ stores st'
       = stores st ++ [{| s_tenant_id := tenant_id;
                          s_store_id := sc_store_id store;
                          s_store_name := sc_store_name store;
                          s_is_active := true |}]
    /\ active_store_count tenant_id (stores st') = store_count + 1.
Proof.
  intros Hroom Hfresh.
  unfold create_store, get_store, store_count in *. monad_unfold. simpl.
  rewrite tenant_is_active. simpl.
  destruct (_ >=? _) eqn:Hge; [lia |].
  rewrite Hfresh. simpl.
  rewrite (select_store_app_new tenant_id (sc_store_id store) (stores st)
             {| s_tenant_id := tenant_id;
                s_store_id := sc_store_id store;
                s_store_name := sc_store_name store;
                s_is_active := is_active_default |}
             Hfresh eq_refl eq_refl).
  eexists. split; [reflexivity |]. simpl. split; [reflexivity |].
  rewrite active_store_count_app. unfold active_store_count at 2. simpl.
  rewrite String.eqb_refl. reflexivity.
Qed.

End StoreLimit.

(** C8 as stated fails: with one active store out of two allowed,
    creating a store under an identifier the tenant already has (here
    that of its deactivated store) is refused. *)
Lemma create_store_below_limit_can_fail :
  select_active_tenant "t1" (tenants Reference.db0) = Some Reference.t1
  /\ active_store_count "t1" (stores Reference.db0)
     = t_max_stores Reference.t1 - 1
  /\ fst (create_store "t1" {| sc_store_id := "s2"; sc_store_name := "Norte" |}
            (Reference.host 1000 0) Reference.db0)
     = Raise (HTTPException 409 "Store s2 already exists for tenant t1")
  /\ ~ exists row,
         fst (create_store "t1"
                {| sc_store_id := "s2"; sc_store_name := "Norte" |}
                (Reference.host 1000 0) Reference.db0)
         = Return row.
Proof.
  vm_compute. repeat split; auto. intros [row H]. discriminate.
Qed.

(** C8, amended.  For an active tenant, the store-limit check raises
    the 429 store-limit error (not a 401) exactly when the number of
    active stores has reached [max_stores].  Store creation at
    [max_stores] active stores is refused and adds nothing; at
    [max_stores - 1], creation under a store identifier that the tenant
    does not have yet succeeds, and the tenant then has [max_stores]
    active stores. *)
Theorem store_limit_boundary
    (env : Env) (st : State) (tenant_id : string) (tenant : Tenant) :
  select_active_tenant tenant_id (tenants st) = Some tenant ->
  ((exists detail,
       fst (validate_store_limit tenant_id env st)
       = Raise (HTTPException 429 detail))
   <-> t_max_stores tenant <= active_store_count tenant_id (stores st))
  /\ (active_store_count tenant_id (stores st) < t_max_stores tenant ->
      fst (validate_store_limit tenant_id env st) = Return tt)
  /\ (forall store,
        active_store_count tenant_id (stores st) = t_max_stores tenant ->
        exists detail st',
          create_store tenant_id store env st
          = (Raise (HTTPException 409 detail), st')
          /\ stores st' = stores st)
  /\ (forall store,
        active_store_count tenant_id (stores st) = t_max_stores tenant - 1 ->
        select_store tenant_id (sc_store_id store) (stores st) = None ->
        exists row st',
          create_store tenant_id store env st = (Return row, st')
          /\ In row (stores st') /\ s_is_active row = true
          /\ s_tenant_id row = tenant_id
          /\ s_store_id row = sc_store_id store
          /\ active_store_count tenant_id (stores st') = t_max_stores tenant).
Proof.
  intros Hactive. repeat split.
  - intros [detail H].
    rewrite (validate_store_limit_unfold env st tenant_id tenant Hactive) in H.
    destruct (_ >=? _) eqn:Hge; [lia | discriminate].
  - intros Hfull.
    rewrite (validate_store_limit_unfold env st tenant_id tenant Hactive).
    destruct (_ >=? _) eqn:Hge; [eauto | lia].
  - intros Hroom.
    rewrite (validate_store_limit_unfold env st tenant_id tenant Hactive).
    destruct (_ >=? _) eqn:Hge; [lia | reflexivity].
  - intros store Hfull.
    eexists. eexists. split.
    + apply (create_store_at_limit env st tenant_id tenant Hactive). lia.
    + reflexivity.
  - intros store Hroom Hfresh.
    destruct (create_store_below_limit env st tenant_id tenant Hactive store)
      as (st' & Hrun & Hstores & Hcount); [lia | assumption |].
    eexists. exists st'. split; [exact Hrun |].
    rewrite Hstores. repeat split.
    + apply in_or_app. right. now left.
    + rewrite <- Hstores, Hcount. lia.
Qed.

Lemma store_limit_boundary_witness :
  exists row st',
    create_store "t1" {| sc_store_id := "s3"; sc_store_name := "Sur" |}
      (Reference.host 1000 0) Reference.db0 = (Return row, st')
    /\ active_store_count "t1" (stores st') = 2.
Proof.
  destruct (store_limit_boundary (Reference.host 1000 0) Reference.db0
              "t1" Reference.t1 eq_refl) as (_ & _ & _ & Hcreate).
  destruct (Hcreate {| sc_store_id := "s3"; sc_store_name := "Sur" |}
              eq_refl eq_refl)
    as (row & st' & Hrun & _ & _ & _ & _ & Hcount).
  exists row, st'. split; [exact Hrun | exact Hcount].
Defined.

(* ================================================================== *)
(** * Further properties of the code *)
(* ================================================================== *)

(** ** API keys: who is accepted, and what a verification writes *)

(** The key table after a verification, on either path. *)
Lemma verification_keys api_key env st st' :
  (exists r, verify_api_key api_key env st = (r, st'))
  \/ (exists r, _lookup_api_key api_key env st = (r, st')) ->
  tenants st' = tenants st /\ stores st' = stores st
  /\ api_key_cache st' = api_key_cache st
  /\ (store_api_keys st' = store_api_keys st
      \/ store_api_keys st'
         = map (touch (sha256_hexdigest env api_key) (posix_time env))
             (store_api_keys st)).
Proof.
  intros [[r H] | [r H]].
  - rewrite verify_api_key_unfold in H.
    destruct (String.eqb api_key EmptyString);
      [injection H as _ <-; auto |].
    simpl in H. destruct (fetchone _) as [[[k t] s] |];
      [| injection H as _ <-; simpl; auto].
    destruct (t_is_active t); simpl in H; [| injection H as _ <-; simpl; auto].
    destruct (s_is_active s); simpl in H; [| injection H as _ <-; simpl; auto].
    destruct (touch_fault env); injection H as _ <-; simpl; auto.
  - rewrite lookup_api_key_unfold in H. simpl in H.
    destruct (fetchone _) as [[k t] |]; [| injection H as _ <-; simpl; auto].
    destruct (touch_fault env); injection H as _ <-; simpl; auto.
Qed.

Lemma key_identity_touch h now k : key_identity (touch h now k) = key_identity k.
Proof. unfold touch. destruct (String.eqb _ h); reflexivity. Qed.

(** X1.  Once every [tenants] row of a tenant is inactive, a lookup
    against the store accepts no API key for that tenant, on either
    path: [verify_api_key] returns no context of that tenant and
    [_lookup_api_key] does not resolve to it. *)
Theorem inactive_tenant_accepts_no_key
    (env : Env) (st : State) (tenant_id : string) :
  (forall t, In t (tenants st) -> t_tenant_id t = tenant_id ->
             t_is_active t = false) ->
  forall api_key,
    (forall ctx st', verify_api_key api_key env st = (Return ctx, st') ->
                     kc_tenant_id ctx <> tenant_id)
    /\ (forall store_id st',
          _lookup_api_key api_key env st
          <> (Return (Some tenant_id, store_id), st')).
Proof.
  intros Hoff api_key. split.
  - intros ctx st' H Heq.
    destruct (verify_api_key_requires_all_active _ _ _ _ _ H)
      as (k & t & s & _ & Ht & _ & _ & Hid & _ & _ & _ & Hact & _ & Hctx & _).
    rewrite (Hoff t Ht) in Hact; [discriminate | congruence].
  - intros store_id st' H.
    destruct (lookup_api_key_requires_key_and_tenant _ _ _ _ _ _ H)
      as (k & t & _ & Ht & _ & Hid & _ & Hact & Hctx & _).
    rewrite (Hoff t Ht) in Hact; [discriminate | congruence].
Qed.

Lemma inactive_tenant_accepts_no_key_witness :
  (forall t, In t (tenants Reference.db_t1_off) ->
             t_tenant_id t = "t1"%string -> t_is_active t = false)
  /\ (forall ctx st',
        verify_api_key "store_t1_s1_abc123" (Reference.host 1000 0)
          Reference.db_t1_off = (Return ctx, st') ->
        kc_tenant_id ctx <> "t1"%string)
  /\ (forall store_id st',
        _lookup_api_key "store_t1_s1_abc123" (Reference.host 1000 0)
          Reference.db_t1_off
        <> (Return (Some "t1"%string, store_id), st')).
Proof.
  assert (Hoff : forall t, In t (tenants Reference.db_t1_off) ->
                   t_tenant_id t = "t1"%string -> t_is_active t = false).
  { intros t [<- | []] _. reflexivity. }
  split; [exact Hoff |].
  exact (inactive_tenant_accepts_no_key (Reference.host 1000 0)
           Reference.db_t1_off "t1" Hoff "store_t1_s1_abc123").
Defined.

(** X2.  A verification, whatever its outcome and on either path,
    writes nothing but [last_used_at]: tenants, stores and the cache
    are untouched, every key record keeps its identity, digest and
    [is_active] flag at its place in the table, a record under another
    digest is not changed at all, and a [last_used_at] either stays or
    becomes the time of the call. *)
Theorem verification_only_writes_last_used
    (api_key : string) (env : Env) (st st' : State) :
  (exists r, verify_api_key api_key env st = (r, st'))
  \/ (exists r, _lookup_api_key api_key env st = (r, st')) ->
  tenants st' = tenants st /\ stores st' = stores st
  /\ api_key_cache st' = api_key_cache st
  /\ map key_identity (store_api_keys st')
     = map key_identity (store_api_keys st)
  /\ forall i k k',
       nth_error (store_api_keys st) i = Some k ->
       nth_error (store_api_keys st') i = Some k' ->
       (k_key_hash k <> sha256_hexdigest env api_key -> k' = k)
       /\ (k_last_used_at k' = k_last_used_at k
           \/ k_last_used_at k' = Some (posix_time env)).
Proof.
  intros H.
  destruct (verification_keys _ _ _ _ H) as (Ht & Hs & Hc & Hk).
  split; [exact Ht |]. split; [exact Hs |]. split; [exact Hc |].
  destruct Hk as [Hk | Hk]; rewrite Hk.
  - split; [reflexivity |].
    intros i k k' Hi Hi'. rewrite Hi in Hi'. injection Hi' as <-. auto.
  - split.
    + rewrite List.map_map. apply map_ext. intros k. apply key_identity_touch.
    + intros i k k' Hi Hi'.
      rewrite nth_error_map, Hi in Hi'. simpl in Hi'. injection Hi' as <-.
      unfold touch.
      destruct (String.eqb _ _) eqn:E; simpl; auto.
      apply String.eqb_eq in E. split; [contradiction | auto].
Qed.

Lemma verification_only_writes_last_used_witness :
  let st' := snd (verify_api_key "store_t1_s1_abc123"
                    (Reference.host 1000 0) Reference.db0) in
  map key_identity (store_api_keys st')
  = map key_identity (store_api_keys Reference.db0)
  /\ nth_error (store_api_keys st') 1 = Some Reference.key_s2.
Proof.
  destruct (verification_only_writes_last_used
              "store_t1_s1_abc123" (Reference.host 1000 0) Reference.db0
              (snd (verify_api_key "store_t1_s1_abc123"
                      (Reference.host 1000 0) Reference.db0))
              (or_introl (ex_intro _ _ eq_refl)))
    as (_ & _ & _ & Hid & _).
  split; [exact Hid | reflexivity].
Defined.

(** ** Issuing, rotating and revoking keys, then verifying *)

Lemma fetchone_filter_and {A} (P Q : A -> bool) (l : list A) (x : A) :
  fetchone (List.filter P l) = Some x -> Q x = true ->
  fetchone (List.filter (fun y => P y && Q y) l) = Some x.
Proof.
  intros H HQ. induction l as [| a l IH]; simpl in *; [discriminate |].
  destruct (P a) eqn:HP; simpl in *.
  - injection H as ->. rewrite HQ. reflexivity.
  - exact (IH H).
Qed.

Lemma select_key_tenant_store_none h st :
  live_under h (store_api_keys st) = [] ->
  select_key_tenant_store h st = [] /\ select_key_tenant h st = [].
Proof.
  unfold live_under, select_key_tenant_store, select_key_tenant.
  intros ->. split; reflexivity.
Qed.

Lemma select_key_tenant_store_single h st k tenant store :
  live_under h (store_api_keys st) = [k] ->
  fetchone (List.filter
    (fun t => String.eqb (t_tenant_id t) (k_tenant_id k)) (tenants st))
  = Some tenant ->
  t_is_active tenant = true ->
  select_store (k_tenant_id k) (k_store_id k) (stores st) = Some store ->
  fetchone (select_key_tenant_store h st) = Some (k, tenant, store)
  /\ fetchone (select_key_tenant h st) = Some (k, tenant).
Proof.
  unfold live_under, select_key_tenant_store, select_key_tenant, select_store.
  intros -> Ht Hact Hs. simpl. rewrite !app_nil_r.
  rewrite (List.filter_ext
             (fun t => String.eqb (k_tenant_id k) (t_tenant_id t))
             (fun t => String.eqb (t_tenant_id t) (k_tenant_id k)))
    by (intros; apply String.eqb_sym).
  rewrite (List.filter_ext
             (fun s => String.eqb (k_tenant_id k) (s_tenant_id s)
                       && String.eqb (k_store_id k) (s_store_id s))
             (fun s => String.eqb (s_tenant_id s) (k_tenant_id k)
                       && String.eqb (s_store_id s) (k_store_id k)))
    by (intros; f_equal; apply String.eqb_sym).
  rewrite (List.filter_ext
             (fun t => String.eqb (k_tenant_id k) (t_tenant_id t)
                       && t_is_active t)
             (fun t => String.eqb (t_tenant_id t) (k_tenant_id k)
                       && t_is_active t))
    by (intros; f_equal; apply String.eqb_sym).
  pose proof (fetchone_filter_and _ t_is_active _ _ Ht Hact) as Ht'.
  destruct (List.filter _ (tenants st)) as [| t0 ts]; [discriminate |].
  injection Ht as ->.
  destruct (List.filter _ (stores st)) as [| s0 ss]; [discriminate |].
  injection Hs as ->.
  split; [reflexivity |].
  destruct (List.filter _ (tenants st)) as [| t1 ts']; [discriminate |].
  injection Ht' as ->. reflexivity.
Qed.

(** After a rotation for a pair, the only key that can be live under a
    digest which the table held for that pair alone is the new one. *)
Lemma live_under_rotated h tenant_id store_id ks new_key :
  (forall k, In k ks -> k_key_hash k = h ->
             same_store tenant_id store_id k = true) ->
  live_under h (deactivate_keys tenant_id store_id ks ++ [new_key])
  = live_under h [new_key].
Proof.
  intros Hown. unfold live_under at 1. rewrite List.filter_app.
  fold (live_under h [new_key]).
  replace (List.filter _ (deactivate_keys tenant_id store_id ks)) with (@nil ApiKey);
    [reflexivity |].
  symmetry. unfold deactivate_keys.
  induction ks as [| k ks IH]; simpl; [reflexivity |].
  rewrite IH by (intros; apply Hown; [now right | assumption]).
  destruct (same_store tenant_id store_id k) eqn:Hk; simpl.
  - now rewrite andb_false_r.
  - destruct (String.eqb (k_key_hash k) h) eqn:Hh; [| reflexivity].
    apply String.eqb_eq in Hh.
    rewrite (Hown k (or_introl eq_refl) Hh) in Hk. discriminate.
Qed.

Lemma generate_api_key_success tenant_id store_id env st response st' :
  generate_api_key tenant_id store_id env st = (Return response, st') ->
  ar_api_key response
  = "store_" +:+ tenant_id +:+ "_" +:+ store_id +:+ "_" +:+ token_urlsafe env
  /\ ar_key_id response = "store_" +:+ tenant_id +:+ "_" +:+ store_id
  /\ ar_tenant_id response = tenant_id /\ ar_store_id response = store_id
  /\ ar_is_active response = true
  /\ tenants st' = tenants st /\ stores st' = stores st
  /\ store_api_keys st'
     = deactivate_keys tenant_id store_id (store_api_keys st)
       ++ [issued_key env tenant_id store_id].
Proof.
  unfold generate_api_key. monad_unfold. simpl.
  destruct (fetchone _); simpl; [| discriminate].
  intros [= <- <-]. simpl. repeat split; reflexivity.
Qed.

Lemma same_store_ids tenant_id store_id k :
  same_store tenant_id store_id k = true ->
  k_tenant_id k = tenant_id /\ k_store_id k = store_id.
Proof.
  unfold same_store. intros H. apply andb_prop in H. destruct H as [Ht Hs].
  now apply String.eqb_eq in Ht, Hs.
Qed.

(** X3.  Issue, then verify: the secret that [generate_api_key]
    returns for a store is accepted right away by [verify_api_key] and
    by the pipeline's [_lookup_api_key], and resolves to that tenant
    and store, provided the tenant and the store are active and the
    table holds the new digest for no other pair. *)
Theorem issued_key_verifies
    (env env' : Env) (st : State) (tenant_id store_id : string)
    (tenant : Tenant) (store : Store) :
  fetchone (List.filter
    (fun t => String.eqb (t_tenant_id t) tenant_id) (tenants st))
  = Some tenant ->
  t_is_active tenant = true ->
  select_store tenant_id store_id (stores st) = Some store ->
  s_is_active store = true ->
  (forall k, In k (store_api_keys st) ->
     k_key_hash k
     = sha256_hexdigest env
         ("store_" +:+ tenant_id +:+ "_" +:+ store_id +:+ "_"
          +:+ token_urlsafe env) ->
     same_store tenant_id store_id k = true) ->
  sha256_hexdigest env' = sha256_hexdigest env ->
  touch_fault env' = None ->
  exists response st1 ctx st2,
    generate_api_key tenant_id store_id env st = (Return response, st1)
    /\ verify_api_key (ar_api_key response) env' st1 = (Return ctx, st2)
    /\ kc_tenant_id ctx = tenant_id /\ kc_store_id ctx = store_id
    /\ kc_key_id ctx = ar_key_id response
    /\ fst (_lookup_api_key (ar_api_key response) env' st1)
       = Return (Some tenant_id, Some store_id).
Proof.
  intros Ht Hact Hs Hsact Hfresh Hsha Hok.
  destruct (generate_api_key tenant_id store_id env st) as [r st1] eqn:Hgen.
  destruct (generate_api_key_tables _ _ _ _ _ _ Hgen)
    as (_ & _ & [(_ & _ & Hnone) | (response & _ & -> & _)]).
  { (* the store is there and active *)
    apply fetchone_None in Hnone.
    pose proof (fetchone_filter_and _ s_is_active _ _ Hs Hsact) as Hrow.
    unfold select_store in Hrow. rewrite Hnone in Hrow. discriminate. }
  destruct (generate_api_key_success _ _ _ _ _ _ Hgen)
    as (Hkey & Hid & _ & _ & _ & Htenants & Hstores & Hkeys).
  set (new_key := issued_key env tenant_id store_id) in *.
  assert (Hlive : live_under (sha256_hexdigest env' (ar_api_key response))
                    (store_api_keys st1) = [new_key]).
  { rewrite Hkeys, Hsha, live_under_rotated
      by (rewrite Hkey; exact Hfresh).
    unfold live_under. simpl.
    now rewrite Hkey, String.eqb_refl. }
  destruct (select_key_tenant_store_single _ st1 new_key tenant store Hlive)
    as [Hrow3 Hrow2].
  { now rewrite Htenants. }
  { exact Hact. }
  { now rewrite Hstores. }
  exists response, st1.
  rewrite verify_api_key_unfold, lookup_api_key_unfold.
  rewrite Hrow3, Hrow2, Hact, Hsact, Hok, Hkey. simpl.
  eexists. eexists. split; [reflexivity |]. simpl.
  rewrite Hid. repeat split; reflexivity.
Qed.

Lemma issued_key_verifies_witness :
  exists response st1 ctx st2,
    generate_api_key "t1" "s1" (Reference.host 1000 0) Reference.db0
    = (Return response, st1)
    /\ verify_api_key (ar_api_key response) (Reference.host 1010 0) st1
       = (Return ctx, st2)
    /\ kc_tenant_id ctx = "t1"%string /\ kc_store_id ctx = "s1"%string.
Proof.
  destruct (issued_key_verifies
              (Reference.host 1000 0) (Reference.host 1010 0) Reference.db0
              "t1" "s1" Reference.t1 Reference.s1
              eq_refl eq_refl eq_refl eq_refl)
    as (response & st1 & ctx & st2 & Hgen & Hver & Ht & Hs & _).
  - intros k [<- | [<- | []]]; vm_compute; [reflexivity | discriminate].
  - reflexivity.
  - reflexivity.
  - exists response, st1, ctx, st2. auto.
Defined.

Lemma verify_without_live_key api_key env st :
  api_key <> EmptyString ->
  live_under (sha256_hexdigest env api_key) (store_api_keys st) = [] ->
  fst (verify_api_key api_key env st)
  = Raise (HTTPException 401 "Invalid API key")
  /\ fst (_lookup_api_key api_key env st) = Return (None, None).
Proof.
  intros Hne Hdead.
  destruct (select_key_tenant_store_none _ _ Hdead) as [H3 H2].
  rewrite verify_api_key_unfold, lookup_api_key_unfold.
  apply String.eqb_neq in Hne. rewrite Hne, H3, H2. simpl. auto.
Qed.

(** X4.  Rotation revokes the previous secret: after
    [generate_api_key] has succeeded for a pair, a key whose digest
    differs from the new one and was held by that pair alone is no
    longer accepted, on either path. *)
Theorem rotation_revokes_previous_secret
    (env env' : Env) (st st1 : State) (tenant_id store_id : string)
    (response : APIKeyResponse) (old_key : string) :
  generate_api_key tenant_id store_id env st = (Return response, st1) ->
  sha256_hexdigest env' = sha256_hexdigest env ->
  old_key <> EmptyString ->
  sha256_hexdigest env old_key
  <> sha256_hexdigest env (ar_api_key response) ->
  (forall k, In k (store_api_keys st) ->
     k_key_hash k = sha256_hexdigest env old_key ->
     same_store tenant_id store_id k = true) ->
  fst (verify_api_key old_key env' st1)
  = Raise (HTTPException 401 "Invalid API key")
  /\ fst (_lookup_api_key old_key env' st1) = Return (None, None).
Proof.
  intros Hgen Hsha Hne Hdiff Hown.
  destruct (generate_api_key_success _ _ _ _ _ _ Hgen)
    as (Hkey & _ & _ & _ & _ & _ & _ & Hkeys).
  apply verify_without_live_key; [assumption |].
  rewrite Hkeys, Hsha, live_under_rotated by assumption.
  unfold live_under. simpl.
  destruct (String.eqb _ _) eqn:E; [| reflexivity].
  apply String.eqb_eq in E. rewrite Hkey in Hdiff. congruence.
Qed.

Lemma rotation_revokes_previous_secret_witness :
  (exists ctx,
     fst (verify_api_key "store_t1_s1_abc123" (Reference.host 1000 0)
            Reference.db0) = Return ctx)
  /\ fst (verify_api_key "store_t1_s1_abc123" (Reference.host 1020 0)
            (snd (generate_api_key "t1" "s1" (Scenario.host_next 1010)
                    Reference.db0)))
     = Raise (HTTPException 401 "Invalid API key").
Proof.
  split; [eexists; reflexivity |].
  refine (proj1 (rotation_revokes_previous_secret
                   (Scenario.host_next 1010) (Reference.host 1020 0)
                   Reference.db0 _ "t1" "s1" _ "store_t1_s1_abc123"
                   eq_refl eq_refl _ _ _)).
  - discriminate.
  - vm_compute. discriminate.
  - intros k [<- | [<- | []]]; vm_compute; [reflexivity | discriminate].
Defined.

(** What [revoke_api_key] does to the key table. *)
Lemma revoke_api_key_tables tenant_id key_id env st r st' :
  revoke_api_key tenant_id key_id env st = (r, st') ->
  let hit := fun k => String.eqb (k_key_id k) key_id
                      && String.eqb (k_tenant_id k) tenant_id in
  tenants st' = tenants st /\ stores st' = stores st
  /\ ((exists detail, r = Raise (HTTPException 404 detail))
      /\ store_api_keys st' = store_api_keys st
      /\ List.filter hit (store_api_keys st) = []
      \/ r = Return tt
         /\ store_api_keys st'
            = map (fun k => if hit k then deactivate k else k)
                (store_api_keys st)).
Proof.
  unfold revoke_api_key, bind, raise, get, modify, execute, logger. simpl.
  destruct (fetchone _) eqn:Hrow; intros [= <- <-]; simpl.
  - auto.
  - apply fetchone_None in Hrow. split; [reflexivity |].
    split; [reflexivity |]. left. eauto.
Qed.

Lemma live_under_revoked h tenant_id key_id ks :
  (forall k, In k ks -> k_key_hash k = h ->
             k_key_id k = key_id /\ k_tenant_id k = tenant_id) ->
  live_under h
    (map (fun k => if String.eqb (k_key_id k) key_id
                      && String.eqb (k_tenant_id k) tenant_id
                   then deactivate k else k) ks) = [].
Proof.
  intros Hown. unfold live_under.
  induction ks as [| k ks IH]; simpl; [reflexivity |].
  rewrite IH by (intros; apply Hown; [now right | assumption]).
  destruct (String.eqb (k_key_id k) key_id
            && String.eqb (k_tenant_id k) tenant_id) eqn:Hhit; simpl.
  - now rewrite andb_false_r.
  - destruct (String.eqb (k_key_hash k) h) eqn:Hh; [| reflexivity].
    apply String.eqb_eq in Hh.
    destruct (Hown k (or_introl eq_refl) Hh) as [E1 E2].
    rewrite E1, E2, !String.eqb_refl in Hhit. discriminate.
Qed.

(** X5.  Revoke, then verify: once [revoke_api_key] has succeeded for
    a key id of a tenant, an API key whose digest the table held under
    that key id and tenant only is no longer accepted, on either path;
    the records under other key ids or tenants are still in the table
    as they were. *)
Theorem revoked_key_is_rejected
    (env env' : Env) (st st1 : State) (tenant_id key_id api_key : string) :
  revoke_api_key tenant_id key_id env st = (Return tt, st1) ->
  api_key <> EmptyString ->
  (forall k, In k (store_api_keys st) ->
     k_key_hash k = sha256_hexdigest env' api_key ->
     k_key_id k = key_id /\ k_tenant_id k = tenant_id) ->
  fst (verify_api_key api_key env' st1)
  = Raise (HTTPException 401 "Invalid API key")
  /\ fst (_lookup_api_key api_key env' st1) = Return (None, None)
  /\ (forall k, In k (store_api_keys st) ->
        ~ (k_key_id k = key_id /\ k_tenant_id k = tenant_id) ->
        In k (store_api_keys st1)).
Proof.
  intros Hrev Hne Hown.
  destruct (revoke_api_key_tables _ _ _ _ _ _ Hrev)
    as (_ & _ & [([d Hd] & _) | (_ & Hkeys)]); [discriminate |].
  assert (Hdead : live_under (sha256_hexdigest env' api_key)
                    (store_api_keys st1) = []).
  { rewrite Hkeys. now apply live_under_revoked. }
  destruct (verify_without_live_key api_key env' st1 Hne Hdead) as [Hv Hl].
  split; [exact Hv |]. split; [exact Hl |].
  intros k Hin Hother. rewrite Hkeys. apply in_map_iff. exists k.
  split; [| assumption].
  destruct (String.eqb (k_key_id k) key_id
            && String.eqb (k_tenant_id k) tenant_id) eqn:Hhit;
    [| reflexivity].
  apply andb_prop in Hhit. destruct Hhit as [H1 H2].
  apply String.eqb_eq in H1, H2. tauto.
Qed.

Lemma revoked_key_is_rejected_witness :
  fst (verify_api_key "store_t1_s1_abc123" (Reference.host 1020 0)
         (snd (revoke_api_key "t1" "store_t1_s1" (Reference.host 1010 0)
                 Reference.db0)))
  = Raise (HTTPException 401 "Invalid API key")
  /\ In Reference.key_s2
       (store_api_keys
          (snd (revoke_api_key "t1" "store_t1_s1" (Reference.host 1010 0)
                  Reference.db0))).
Proof.
  destruct (revoked_key_is_rejected
              (Reference.host 1010 0) (Reference.host 1020 0) Reference.db0
              (snd (revoke_api_key "t1" "store_t1_s1" (Reference.host 1010 0)
                      Reference.db0))
              "t1" "store_t1_s1" "store_t1_s1_abc123" eq_refl)
    as (Hver & _ & Hframe).
  - discriminate.
  - intros k [<- | [<- | []]]; vm_compute; intros H;
      [split; reflexivity | discriminate].
  - split; [exact Hver |].
    apply Hframe; [right; now left |].
    vm_compute. intros [H _]. discriminate.
Defined.

Lemma filter_at_most_one {A} (P : A -> bool) (l : list A) (a b : A) :
  (length (List.filter P l) <= 1)%nat ->
  In a l -> In b l -> P a = true -> P b = true -> a = b.
Proof.
  intros Hlen Ha Hb HPa HPb.
  assert (Ha' : In a (List.filter P l)) by (apply filter_In; auto).
  assert (Hb' : In b (List.filter P l)) by (apply filter_In; auto).
  destruct (List.filter P l) as [| x [| y rest]]; simpl in *.
  - destruct Ha'.
  - destruct Ha' as [<- | []], Hb' as [<- | []]. reflexivity.
  - lia.
Qed.

(** X6.  In every state reached from an empty key table by issuing,
    revoking and verifying keys, two active key records of the same
    (tenant, store) pair are one and the same record: a store never
    has two valid secrets. *)
Theorem reachable_store_has_one_secret (st : State) (k1 k2 : ApiKey) :
  reachable st ->
  In k1 (store_api_keys st) -> In k2 (store_api_keys st) ->
  k_is_active k1 = true -> k_is_active k2 = true ->
  k_tenant_id k1 = k_tenant_id k2 -> k_store_id k1 = k_store_id k2 ->
  k1 = k2.
Proof.
  intros Hreach H1 H2 Ha1 Ha2 Ht Hs.
  pose proof (reachable_one_active_key st Hreach
                (k_tenant_id k1) (k_store_id k1)) as Hlen.
  unfold active_keys in Hlen.
  apply (filter_at_most_one _ _ _ _ Hlen H1 H2).
  - unfold same_store. now rewrite !String.eqb_refl, Ha1.
  - unfold same_store. now rewrite <- Ht, <- Hs, !String.eqb_refl, Ha2.
Qed.

Lemma reachable_store_has_one_secret_witness :
  let st := snd (generate_api_key "t1" "s1" (Scenario.host_next 1010)
                   (snd (generate_api_key "t1" "s1" (Reference.host 1000 0)
                           Scenario.db_no_keys))) in
  reachable st
  /\ (forall k, In k (store_api_keys st) -> k_is_active k = true ->
                k_tenant_id k = "t1"%string -> k_store_id k = "s1"%string ->
                k = issued_key (Scenario.host_next 1010) "t1" "s1").
Proof.
  intros st.
  assert (Hreach : reachable st).
  { set (st0 := Scenario.db_no_keys).
    set (st1 := snd (generate_api_key "t1" "s1" (Reference.host 1000 0) st0)).
    apply (reachable_step st1 st).
    + apply (reachable_step st0 st1).
      * apply reachable_init. reflexivity.
      * apply (step_generate_api_key st0 st1 "t1" "s1" (Reference.host 1000 0)
                 (fst (generate_api_key "t1" "s1" (Reference.host 1000 0) st0))).
        reflexivity.
    + apply (step_generate_api_key st1 st "t1" "s1" (Scenario.host_next 1010)
               (fst (generate_api_key "t1" "s1" (Scenario.host_next 1010) st1))).
      reflexivity. }
  split; [exact Hreach |].
  intros k Hin Hact Ht Hs.
  apply (reachable_store_has_one_secret st); auto.
  vm_compute. auto.
Defined.

(** ** The request pipeline: credentials, cache, tenant context *)

Lemma replace_from_absent old new k :
  occurs old k = false -> replace_from O old new k = k.
Proof.
  induction k as [| c k IH]; simpl; [reflexivity |].
  intros H. apply orb_false_iff in H. destruct H as [Hp Ho].
  simpl in Hp. rewrite Hp. now rewrite IH.
Qed.

Lemma prefix_nil s : String.prefix EmptyString s = true.
Proof. destruct s; reflexivity. Qed.

Lemma prefix_append old k : String.prefix old (old +:+ k) = true.
Proof.
  induction old as [| a o IH]; [apply prefix_nil |].
  change (String a o +:+ k) with (String a (o +:+ k)).
  cbn [String.prefix]. destruct (ascii_dec a a); [exact IH | congruence].
Qed.

Lemma replace_from_skip a old new k :
  replace_from (String.length a) old new (a +:+ k) = replace_from O old new k.
Proof.
  induction a as [| c a IH]; [reflexivity |].
  change (String c a +:+ k) with (String c (a +:+ k)).
  cbn [String.length replace_from]. exact IH.
Qed.

(** Removing the scheme from [scheme ++ key]. *)
Lemma replace_from_prefix c o new k :
  replace_from O (String c o) new (String c o +:+ k)
  = new +:+ replace_from O (String c o) new k.
Proof.
  pose proof (prefix_append (String c o) k) as Hp.
  change (String c o +:+ k) with (String c (o +:+ k)) in *.
  cbn [replace_from]. rewrite Hp.
  cbn [String.length Nat.pred]. now rewrite replace_from_skip.
Qed.

(** X7.  A well-formed header yields its key unchanged: for
    [Authorization: Bearer <key>] where the key does not itself
    contain the text ["Bearer "], the middleware accepts the header
    and the key it goes on to hash is exactly [<key>]. *)
Theorem bearer_key_intact (request : Request) (key : string) :
  authorization request = Some ("Bearer " +:+ key) ->
  occurs "Bearer " key = false ->
  String.prefix "Bearer " (default EmptyString (authorization request)) = true
  /\ bearer_key request = key.
Proof.
  intros Hauth Habsent. unfold bearer_key, str_replace.
  rewrite Hauth. cbn [default from_option id].
  split; [apply prefix_append |].
  rewrite replace_from_prefix.
  now rewrite replace_from_absent.
Qed.

Lemma bearer_key_intact_witness :
  bearer_key (Reference.request_with "store_t1_s1_abc123")
  = "store_t1_s1_abc123"%string.
Proof.
  apply (bearer_key_intact (Reference.request_with "store_t1_s1_abc123")
           "store_t1_s1_abc123" eq_refl eq_refl).
Defined.

(** The replacement is not anchored at the start of the header: a key
    that contains ["Bearer "] loses that text. *)
Example bearer_key_mangled :
  bearer_key (Reference.request_with "store_Bearer x") = "store_x"%string.
Proof. reflexivity. Qed.

(** X8.  A request outside the bypass list whose [Authorization]
    header is absent, does not start with ["Bearer "] or carries an
    empty key is answered 401 by the middleware itself: the handler is
    not run, no statement reaches the store, and the state (tables,
    cache, log, tasks) is exactly what it was. *)
Theorem missing_credentials_rejected_untouched
    (call_next : Request -> M Response) (request : Request)
    (env : Env) (st : State) :
  existsb (String.eqb (url_path request)) bypass_paths = false ->
  String.prefix "Bearer " (default EmptyString (authorization request)) = false
  \/ bearer_key request = EmptyString ->
  __call__ call_next request env st
  = (Return (JSONResponse 401 "Invalid or missing API key"), st).
Proof.
  intros Hpath Hbad.
  unfold __call__. rewrite Hpath.
  unfold try_except, call_body. unfold bind at 1.
  rewrite extract_tenant_context_unfold.
  destruct (String.prefix _ _) eqn:Hp; simpl.
  - destruct Hbad as [Hbad | Hbad]; [discriminate |].
    rewrite Hbad. reflexivity.
  - reflexivity.
Qed.

Lemma missing_credentials_rejected_untouched_witness :
  __call__ Reference.handler_ok
    {| url_path := "/v1/metrics"; method := "GET";
       authorization := Some "Basic dXNlcjpwYXNz"%string;
       state_tenant_id := None; state_store_id := None |}
    (Reference.host 1000 0) Reference.db0
  = (Return (JSONResponse 401 "Invalid or missing API key"), Reference.db0).
Proof.
  apply missing_credentials_rejected_untouched.
  - reflexivity.
  - left. reflexivity.
Defined.

(** The [try] block of [__call__], step by step. *)
Lemma call_body_unfold call_next request env st :
  call_body call_next request env st =
  match _extract_tenant_context request env st with
  | (Raise e, st1) => (Raise e, st1)
  | (Return (tenant_id, store_id), st1) =>
      if truthy tenant_id then
        let request' := set_request_state tenant_id store_id request in
        let st2 :=
          add_task (default EmptyString tenant_id)
            (add_statement (SetAppTenant (default EmptyString tenant_id)) st1) in
        match call_next request' env st2 with
        | (Raise e, st3) => (Raise e, st3)
        | (Return response, st3) =>
            match _log_tenant_activity tenant_id store_id request' env st3 with
            | (Raise e, st4) => (Raise e, st4)
            | (Return _, st4) => (Return response, st4)
            end
        end
      else (Return (JSONResponse 401 "Invalid or missing API key"), st1)
  end.
Proof.
  unfold call_body. unfold bind at 1.
  destruct (_extract_tenant_context request env st)
    as [[[tenant_id store_id] | e] st1]; [| reflexivity].
  destruct (truthy tenant_id); simpl; [| reflexivity].
  unfold _set_database_context, create_task_validate_tenant_limits.
  unfold bind at 1. unfold execute, modify at 1. simpl.
  unfold bind at 1. unfold modify at 1. simpl.
  unfold bind at 1.
  destruct (call_next _ env _) as [[response | e] st3]; [| reflexivity].
  unfold bind at 1.
  destruct (_log_tenant_activity _ _ _ env st3) as [[[] | e] st4];
    reflexivity.
Qed.

(** X9.  Behind the middleware, outside the bypass list, the handler
    only ever runs on a request that carries a tenant context:
    [get_tenant_id] succeeds on it with a non-empty tenant.  Two
    handlers that agree on such requests are indistinguishable. *)
Theorem handler_runs_only_with_tenant_context
    (call_next call_next' : Request -> M Response) (request : Request)
    (env : Env) (st : State) :
  existsb (String.eqb (url_path request)) bypass_paths = false ->
  (forall r env0 st0,
      (exists tenant_id,
          get_tenant_id r = Return tenant_id /\ tenant_id <> EmptyString) ->
      call_next r env0 st0 = call_next' r env0 st0) ->
  __call__ call_next request env st = __call__ call_next' request env st.
Proof.
  intros Hpath Hagree.
  unfold __call__. rewrite Hpath.
  unfold try_except. rewrite !call_body_unfold.
  destruct (_extract_tenant_context request env st)
    as [[[tenant_id store_id] | e] st1]; [| reflexivity].
  destruct tenant_id as [t |]; simpl; [| reflexivity].
  destruct (String.eqb t EmptyString) eqn:Ht; simpl; [reflexivity |].
  rewrite Hagree; [reflexivity |].
  exists t. split; [reflexivity |]. now apply String.eqb_neq.
Qed.

Lemma handler_runs_only_with_tenant_context_witness :
  let strict := fun r : Request =>
    match get_tenant_id r with
    | Return _ => Reference.handler_ok r
    | Raise e => raise e
    end in
  __call__ Reference.handler_ok
    (Reference.request_with "store_t1_s1_abc123")
    (Reference.host 1000 0) Reference.db0
  = __call__ strict (Reference.request_with "store_t1_s1_abc123")
      (Reference.host 1000 0) Reference.db0.
Proof.
  intros strict.
  apply handler_runs_only_with_tenant_context; [reflexivity |].
  intros r env0 st0 (t & Ht & _). unfold strict. now rewrite Ht.
Defined.

Lemma cache_hit_Some now cached c :
  cache_hit now cached = Some c -> cached = Some c /\ now < ce_expires c.
Proof.
  unfold cache_hit. destruct cached as [c0 |]; [| discriminate].
  destruct (ce_expires c0 >? now) eqn:H; [| discriminate].
  intros [= <-]. split; [reflexivity | lia].
Qed.

(** X10.  The cache only ever learns successful resolutions.  A
    resolution that fails or raises leaves the cache as it was; after
    one that succeeds the cache holds, under the digest of the key, a
    live entry with the tenant and store that were returned; entries
    under other digests are never touched. *)
Theorem cache_learns_only_successes
    (request : Request) (env : Env) (st st' : State)
    (r : result (option string * option string)) :
  _extract_tenant_context request env st = (r, st') ->
  let cache_key := sha256_hexdigest env (bearer_key request) in
  (forall key, key <> cache_key ->
               api_key_cache st' !! key = api_key_cache st !! key)
  /\ match r with
     | Return (tenant_id, store_id) =>
         if truthy tenant_id then
           exists c,
             api_key_cache st' !! cache_key = Some c
             /\ ce_tenant_id c = tenant_id /\ ce_store_id c = store_id
             /\ utcnow env < ce_expires c
         else api_key_cache st' = api_key_cache st
     | Raise _ => api_key_cache st' = api_key_cache st
     end.
Proof.
  intros H cache_key. rewrite extract_tenant_context_unfold in H.
  destruct (negb _).
  { injection H as <- <-. simpl. split; reflexivity. }
  destruct (String.eqb _ EmptyString).
  { injection H as <- <-. simpl. split; reflexivity. }
  simpl in H. fold cache_key in H.
  destruct (cache_hit _ _) as [c |] eqn:Hhit.
  - injection H as <- <-.
    apply cache_hit_Some in Hhit. destruct Hhit as [Hc Hlive].
    split; [reflexivity |].
    destruct (truthy (ce_tenant_id c)); [| reflexivity].
    exists c. auto.
  - destruct (_lookup_api_key _ env st) as [[[tid sid] | e] st1] eqn:HL;
      destruct (verification_keys _ _ _ _ (or_intror (ex_intro _ _ HL)))
        as (_ & _ & Hcache & _);
      injection H as <- <-.
    + destruct (truthy tid) eqn:Htruthy; simpl.
      * split.
        -- intros key Hne. rewrite lookup_insert_ne by congruence.
           now rewrite Hcache.
        -- eexists. rewrite lookup_insert_eq.
           split; [reflexivity |]. simpl. unfold cache_ttl.
           repeat split; lia.
      * split; [now rewrite Hcache | exact Hcache].
    + split; [now rewrite Hcache | exact Hcache].
Qed.

Lemma cache_learns_only_successes_witness :
  api_key_cache
    (snd (_extract_tenant_context (Reference.request_with "store_t1_s1_wrong")
            (Reference.host 1000 0) Reference.db0))
  = api_key_cache Reference.db0.
Proof.
  destruct (cache_learns_only_successes
              (Reference.request_with "store_t1_s1_wrong")
              (Reference.host 1000 0) Reference.db0 _ _ eq_refl) as [_ H].
  exact H.
Defined.

(** ** Session tokens and the permission gate *)

Lemma verify_access_token_body_of_success self token env st payload st' :
  verify_access_token self token env st = (Return payload, st') ->
  verify_access_token_body self token env st = (Return payload, st').
Proof.
  unfold verify_access_token, try_except.
  destruct (verify_access_token_body self token env st) as [[p | e] s];
    [auto |].
  unfold verify_access_token_except.
  destruct (is_InvalidTokenError e); monad_unfold; simpl; discriminate.
Qed.

(** Token verification reads [tenants] and writes nothing. *)
Lemma verify_access_token_frame self token env st r st' :
  verify_access_token self token env st = (r, st') ->
  tenants st' = tenants st /\ stores st' = stores st
  /\ store_api_keys st' = store_api_keys st
  /\ api_key_cache st' = api_key_cache st.
Proof.
  unfold verify_access_token, try_except, verify_access_token_body,
    verify_access_token_except, _verify_tenant_active.
  monad_unfold.
  destruct (jwt_decode env token _ _ _) as [p | e0].
  - destruct (p_exp p) as [exp |].
    + destruct (utcnow env >? fromtimestamp env exp).
      * simpl. intros [= <- <-]. auto.
      * destruct (p_tenant_id p) as [tid |]; [| intros [= <- <-]; auto].
        destruct (truthy (Some tid)); [| intros [= <- <-]; auto].
        simpl. destruct (fetchone _) as [t |]; simpl.
        -- destruct (t_is_active t); simpl; intros [= <- <-]; auto.
        -- intros [= <- <-]. auto.
    + simpl. intros [= <- <-]. auto.
  - destruct (is_InvalidTokenError e0); simpl; intros [= <- <-]; auto.
Qed.

(** X11.  A token is accepted only if the library decoded it to the
    claims that are returned, it carries an expiry that the check of
    the function has not found passed, and the tenant it names, when
    it names one, has an active row in [tenants] at that moment. *)
Theorem verify_access_token_sound
    (self : AuthService) (token : Token) (env : Env) (st st' : State)
    (payload : Payload) :
  verify_access_token self token env st = (Return payload, st') ->
  jwt_decode env token (jwt_secret self) [jwt_algorithm self] (posix_time env)
  = Return payload
  /\ (exists exp, p_exp payload = Some exp
                  /\ utcnow env <= fromtimestamp env exp)
  /\ (forall tenant_id,
        p_tenant_id payload = Some tenant_id -> tenant_id <> EmptyString ->
        exists t, In t (tenants st) /\ t_tenant_id t = tenant_id
                  /\ t_is_active t = true).
Proof.
  intros H. apply verify_access_token_body_of_success in H.
  unfold verify_access_token_body, _verify_tenant_active in H.
  unfold bind, ret, raise, ask, get, execute, modify in H.
  destruct (jwt_decode env token _ _ _) as [p | e0]; [| discriminate].
  destruct (p_exp p) as [exp |] eqn:Hexp; [| discriminate].
  destruct (utcnow env >? fromtimestamp env exp) eqn:Hgt; [discriminate |].
  assert (Hle : utcnow env <= fromtimestamp env exp) by lia.
  destruct (p_tenant_id p) as [tid |] eqn:Htid.
  - destruct (truthy (Some tid)) eqn:Htruthy.
    + simpl in H.
      destruct (fetchone _) as [t |] eqn:Hrow; simpl in H.
      * destruct (t_is_active t) eqn:Hact; simpl in H; [| discriminate].
        injection H as <- _.
        split; [reflexivity |]. split; [eauto |].
        intros tid' Heq _. rewrite Htid in Heq. injection Heq as <-.
        apply fetchone_In in Hrow. apply filter_In in Hrow.
        destruct Hrow as [Hin Hid]. apply String.eqb_eq in Hid. eauto.
      * discriminate.
    + injection H as <- _.
      split; [reflexivity |]. split; [eauto |].
      intros tid' Heq Hne. rewrite Htid in Heq. injection Heq as <-.
      simpl in Htruthy. apply String.eqb_neq in Hne.
      rewrite Hne in Htruthy. discriminate.
  - injection H as <- _.
    split; [reflexivity |]. split; [eauto |].
    intros tid' Heq. rewrite Htid in Heq. discriminate.
Qed.

Lemma verify_access_token_sound_witness :
  exists t, In t (tenants Reference.db0) /\ t_tenant_id t = "t1"%string
            /\ t_is_active t = true.
Proof.
  destruct (verify_access_token_sound
              Reference.auth
              (Reference.encode
                 (access_token_payload Reference.auth Reference.alice
                    (Reference.host 1000 0)) "secret" "HS256")
              (Reference.host 1010 0) Reference.db0 _ _ eq_refl)
    as (_ & _ & Htenant).
  apply (Htenant "t1"%string); [reflexivity | discriminate].
Defined.

(** X12.  The token dependency fails closed and writes nothing: when
    [get_current_user_jwt] raises, it is a 401, or the 500 of a
    service that was never initialised; whatever the token library
    raised is not passed on; and, whatever the outcome, the tables and
    the key cache are as they were. *)
Theorem get_current_user_jwt_fails_closed
    (auth_service : option AuthService) (token : Token)
    (env : Env) (st st' : State) (r : result Payload) :
  get_current_user_jwt auth_service token env st = (r, st') ->
  (forall e, r = Raise e ->
     (auth_service = None
      /\ e = HTTPException 500 "Auth service not initialized")
     \/ (auth_service <> None /\ exists detail, e = HTTPException 401 detail))
  /\ tenants st' = tenants st /\ stores st' = stores st
  /\ store_api_keys st' = store_api_keys st
  /\ api_key_cache st' = api_key_cache st.
Proof.
  unfold get_current_user_jwt. destruct auth_service as [service |].
  - intros H. split.
    + intros e ->. right. split; [discriminate |].
      destruct (verify_access_token_errors _ _ _ _ _ _ H) as [-> | [m ->]];
        eauto.
    + exact (verify_access_token_frame _ _ _ _ _ _ H).
  - intros [= <- <-]. split; [| auto].
    intros e [= <-]. now left.
Qed.

Lemma get_current_user_jwt_fails_closed_witness :
  exists detail,
    fst (get_current_user_jwt (Some Reference.auth)
           {| tok_claims :=
                access_token_payload Reference.auth Reference.alice
                  (Reference.host 1000 0);
              tok_signature := "forged" |}
           (Reference.host 1010 0) Reference.db0)
    = Raise (HTTPException 401 detail).
Proof.
  destruct (get_current_user_jwt_fails_closed
              (Some Reference.auth)
              {| tok_claims :=
                   access_token_payload Reference.auth Reference.alice
                     (Reference.host 1000 0);
                 tok_signature := "forged" |}
              (Reference.host 1010 0) Reference.db0 _ _ eq_refl)
    as (Herr & _).
  destruct (Herr _ eq_refl) as [[H _] | [_ [detail H]]]; [discriminate |].
  exists detail. simpl. now rewrite <- H.
Defined.

Lemma held_permission permission (user : Payload) :
  existsb (String.eqb permission) (p_permissions user) = true
  <-> In permission (p_permissions user).
Proof.
  rewrite existsb_exists. split.
  - intros (x & Hin & Heq). apply String.eqb_eq in Heq. now subst.
  - intros Hin. exists permission. split; [assumption | apply String.eqb_refl].
Qed.

Lemma require_permissions_passes required (user : Payload) :
  require_permissions required user = Return user
  <-> forall permission, In permission required ->
                         In permission (p_permissions user).
Proof.
  induction required as [| p rest IH]; simpl.
  - split; [intros _ q [] | reflexivity].
  - destruct (existsb (String.eqb p) (p_permissions user)) eqn:Hp.
    + apply held_permission in Hp. rewrite IH. split.
      * intros H q [<- | Hq]; auto.
      * intros H q Hq. apply H. now right.
    + split; [discriminate |].
      intros H. specialize (H p (or_introl eq_refl)).
      apply held_permission in H. congruence.
Qed.

(** X13.  [require_permissions] lets a user through exactly when every
    required permission is among the user's, and hands the user back
    unchanged; otherwise it raises a 403 that names the first required
    permission, in the order given, that the user lacks. *)
Theorem require_permissions_first_missing
    (required : list string) (user : Payload) :
  (require_permissions required user = Return user
   <-> forall permission, In permission required ->
                          In permission (p_permissions user))
  /\ (forall u, require_permissions required user = Return u -> u = user)
  /\ (forall e, require_permissions required user = Raise e ->
        exists held missing rest,
          required = held ++ missing :: rest
          /\ (forall permission, In permission held ->
                                 In permission (p_permissions user))
          /\ ~ In missing (p_permissions user)
          /\ e = HTTPException 403
                   ("Permission denied. Required: " +:+ missing)).
Proof.
  split; [apply require_permissions_passes |]. split.
  - induction required as [| p rest IH]; simpl.
    + intros u [= <-]. reflexivity.
    + destruct (existsb _ _); [exact IH | discriminate].
  - induction required as [| p rest IH]; simpl; [discriminate |].
    destruct (existsb (String.eqb p) (p_permissions user)) eqn:Hp.
    + intros e He. destruct (IH e He) as (held & missing & rest' & -> & Hh & Hm & ->).
      exists (p :: held), missing, rest'. split; [reflexivity |].
      split; [| auto].
      intros q [<- | Hq]; [now apply held_permission | auto].
    + intros e [= <-]. exists [], p, rest. split; [reflexivity |].
      split; [intros q [] |]. split; [| reflexivity].
      intros Hin. apply held_permission in Hin. congruence.
Qed.

(** A token presented before the instant it was issued at is refused
    by the library, and the refusal comes out as a 401. *)
Example token_from_the_future_is_refused :
  fst (Reference.issue_then_verify 0 1000 990 Reference.db0)
  = Raise (HTTPException 401
             "Invalid token: The token is not yet valid (iat)").
Proof. reflexivity. Qed.

(** X14.  From login data to the gate: on a host whose local time is
    not behind UTC, a token issued for a subject and presented no
    earlier than it was issued and before its expiry, while the tenant
    is active, passes
    [get_current_user_jwt]; the user it yields then passes
    [require_permissions] exactly for the sets of permissions
    contained in those the token was issued with, and
    [require_tenant_access] exactly for the subject's own tenant. *)
Theorem issued_token_passes_gate
    (self : AuthService) (env : Env) (user_data : UserData) (st : State)
    (t0 t1 : Z) (tenant : Tenant) :
  jwt_round_trip env ->
  0 <= utc_offset env ->
  t0 <= t1 ->
  t1 < t0 + access_token_expire_minutes self * 60 ->
  fetchone (List.filter
    (fun t => String.eqb (t_tenant_id t) (ud_tenant_id user_data))
    (tenants st)) = Some tenant ->
  t_is_active tenant = true ->
  exists token user st',
    create_access_token self user_data (at_time t0 env) st
    = (Return token, st)
    /\ get_current_user_jwt (Some self) token (at_time t1 env) st
       = (Return user, st')
    /\ p_sub user = ud_user_id user_data
    /\ (forall required,
          require_permissions required user = Return user
          <-> forall permission,
                In permission required ->
                In permission (default [] (ud_permissions user_data)))
    /\ (forall tenant_id,
          require_tenant_access tenant_id user = Return user
          <-> tenant_id = ud_tenant_id user_data).
Proof.
  intros Hrt Hoff Hle Hlt Hrow Hact.
  destruct (verify_access_token_round_trip self env user_data st t0 t1 tenant
              Hrt Hoff Hle Hlt Hrow Hact) as (token & st' & Hcreate & Hverify).
  exists token, (access_token_payload self user_data (at_time t0 env)), st'.
  split; [exact Hcreate |]. split; [exact Hverify |].
  split; [reflexivity |]. split.
  - intros required. apply require_permissions_passes.
  - intros tenant_id. unfold require_tenant_access. simpl.
    destruct (String.eqb (ud_tenant_id user_data) tenant_id) eqn:E.
    + apply String.eqb_eq in E. split; [congruence | reflexivity].
    + apply String.eqb_neq in E. split; [discriminate | congruence].
Qed.

Lemma issued_token_passes_gate_witness :
  exists token user st',
    create_access_token Reference.auth Reference.alice
      (at_time 1000 (Reference.host 0 0)) Reference.db0
    = (Return token, Reference.db0)
    /\ get_current_user_jwt (Some Reference.auth) token
         (at_time 1010 (Reference.host 0 0)) Reference.db0
       = (Return user, st')
    /\ require_permissions ["read:metrics"%string] user = Return user
    /\ require_tenant_access "t1" user = Return user.
Proof.
  destruct (issued_token_passes_gate
              Reference.auth (Reference.host 0 0) Reference.alice Reference.db0
              1000 1010 Reference.t1
              (reference_round_trip 0 0) ltac:(simpl; lia)
              ltac:(lia) ltac:(simpl; lia) eq_refl eq_refl)
    as (token & user & st' & Hc & Hv & _ & Hperm & Hten).
  exists token, user, st'.
  split; [exact Hc |]. split; [exact Hv |]. split.
  - apply Hperm. intros p [<- | []]. simpl. now left.
  - apply Hten. reflexivity.
Defined.

(** ** Stores and limits *)

(** What [create_store] does to the tables. *)
Lemma create_store_tables tenant_id store env st r st' :
  create_store tenant_id store env st = (r, st') ->
  tenants st' = tenants st /\ store_api_keys st' = store_api_keys st
  /\ api_key_cache st' = api_key_cache st
  /\ ((exists e, r = Raise e) /\ stores st' = stores st
      \/ exists tenant,
           let row := {| s_tenant_id := tenant_id;
                         s_store_id := sc_store_id store;
                         s_store_name := sc_store_name store;
                         s_is_active := true |} in
           r = Return row
           /\ stores st' = stores st ++ [row]
           /\ select_active_tenant tenant_id (tenants st) = Some tenant
           /\ active_store_count tenant_id (stores st) < t_max_stores tenant
           /\ select_store tenant_id (sc_store_id store) (stores st) = None).
Proof.
  unfold create_store, get_store. monad_unfold. simpl.
  destruct (select_active_tenant _ _) as [tenant |] eqn:Hten; simpl.
  2:{ intros [= <- <-]. simpl. repeat split; auto. left. eauto. }
  destruct (_ >=? _) eqn:Hge; simpl.
  { intros [= <- <-]. simpl. repeat split; auto. left. eauto. }
  destruct (select_store _ _ (stores st)) as [s0 |] eqn:Hdup; simpl.
  { intros [= <- <-]. simpl. repeat split; auto. left. eauto. }
  rewrite (select_store_app_new tenant_id (sc_store_id store) (stores st)
             {| s_tenant_id := tenant_id;
                s_store_id := sc_store_id store;
                s_store_name := sc_store_name store;
                s_is_active := is_active_default |} Hdup eq_refl eq_refl).
  intros [= <- <-]. simpl. repeat split; auto. right.
  exists tenant. simpl. repeat split; auto. lia.
Qed.

(** X15.  [create_store] keeps store identifiers unique within a
    tenant: whatever its outcome, if no two rows of [stores] shared a
    (tenant, store) identifier before the call, none do after. *)
Theorem create_store_keeps_store_ids_unique
    (tenant_id : string) (store : StoreCreate) (env : Env) (st st' : State)
    (r : result Store) :
  create_store tenant_id store env st = (r, st') ->
  store_ids_unique (stores st) ->
  store_ids_unique (stores st').
Proof.
  intros Hrun Huniq.
  destruct (create_store_tables _ _ _ _ _ _ Hrun)
    as (_ & _ & _ & [(_ & ->) | (tenant & _ & -> & _ & _ & Hfresh)]);
    [exact Huniq |].
  unfold store_ids_unique in *. rewrite List.map_app. simpl.
  apply NoDup_app. split; [exact Huniq |]. split.
  - intros x Hin1 Hin2. apply list_elem_of_In in Hin1.
    apply list_elem_of_In in Hin2. destruct Hin2 as [<- | []].
    apply in_map_iff in Hin1. destruct Hin1 as (s & [= Ht Hs] & Hin).
    unfold select_store in Hfresh. apply fetchone_None in Hfresh.
    assert (Hf : In s (List.filter
      (fun s => String.eqb (s_tenant_id s) tenant_id
                && String.eqb (s_store_id s) (sc_store_id store))
      (stores st))).
    { apply filter_In. split; [assumption |].
      now rewrite Ht, Hs, !String.eqb_refl. }
    rewrite Hfresh in Hf. destruct Hf.
  - apply NoDup_singleton.
Qed.

Lemma create_store_keeps_store_ids_unique_witness :
  store_ids_unique
    (stores (snd (create_store "t1"
                    {| sc_store_id := "s3"; sc_store_name := "Sur" |}
                    (Reference.host 1000 0) Reference.db0))).
Proof.
  apply (create_store_keeps_store_ids_unique
           "t1" {| sc_store_id := "s3"; sc_store_name := "Sur" |}
           (Reference.host 1000 0) Reference.db0 _ _ eq_refl).
  unfold store_ids_unique. simpl.
  apply NoDup_cons. split.
  - intros H. apply list_elem_of_In in H. destruct H as [H | []].
    discriminate.
  - apply NoDup_singleton.
Defined.

(** X16.  [create_store] keeps every tenant within its limit: if no
    active tenant had more active stores than its [max_stores] before
    the call, none has after, whatever the outcome. *)
Theorem create_store_keeps_within_limits
    (tenant_id : string) (store : StoreCreate) (env : Env) (st st' : State)
    (r : result Store) :
  create_store tenant_id store env st = (r, st') ->
  within_store_limits st ->
  within_store_limits st'.
Proof.
  intros Hrun Hinv.
  destruct (create_store_tables _ _ _ _ _ _ Hrun)
    as (Hten & _ & _ & [(_ & Hst) | (tenant & _ & Hst & Hsel & Hroom & _)]);
    intros tid t Ht; rewrite Hten in Ht; rewrite Hst.
  - now apply Hinv.
  - rewrite active_store_count_app.
    unfold active_store_count at 2. simpl.
    destruct (String.eqb tenant_id tid) eqn:E; simpl.
    + apply String.eqb_eq in E. subst tid.
      rewrite Hsel in Ht. injection Ht as <-. lia.
    + specialize (Hinv tid t Ht). lia.
Qed.

Lemma create_store_keeps_within_limits_witness :
  within_store_limits
    (snd (create_store "t1" {| sc_store_id := "s3"; sc_store_name := "Sur" |}
            (Reference.host 1000 0) Reference.db0)).
Proof.
  apply (create_store_keeps_within_limits
           "t1" {| sc_store_id := "s3"; sc_store_name := "Sur" |}
           (Reference.host 1000 0) Reference.db0 _ _ eq_refl).
  intros tid t H.
  unfold select_active_tenant, Reference.db0 in H.
  cbn [tenants List.filter] in H.
  destruct (String.eqb (t_tenant_id Reference.t1) tid) eqn:E;
    cbn [andb fetchone hd_error] in H; [| discriminate].
  change (Some Reference.t1 = Some t) in H. injection H as <-.
  apply String.eqb_eq in E. subst tid.
  vm_compute. discriminate.
Defined.

(** X17.  A failed issuance changes nothing: [generate_api_key] fails
    only with a 404, only when the pair has no active store, and then
    no key has been deactivated and no table touched. *)
Theorem failed_issuance_changes_nothing
    (tenant_id store_id : string) (env : Env) (st st' : State) (e : exn) :
  generate_api_key tenant_id store_id env st = (Raise e, st') ->
  (exists detail, e = HTTPException 404 detail)
  /\ store_api_keys st' = store_api_keys st
  /\ tenants st' = tenants st /\ stores st' = stores st
  /\ forall s, In s (stores st) ->
       s_tenant_id s = tenant_id -> s_store_id s = store_id ->
       s_is_active s = false.
Proof.
  intros Hrun.
  destruct (generate_api_key_tables _ _ _ _ _ _ Hrun)
    as (Hten & Hst & [(Hd & Hkeys & Hnone) | (resp & k & Hr & _)]);
    [| discriminate].
  destruct Hd as [d [= ->]].
  repeat split; eauto.
  intros s Hin Ht Hs. apply fetchone_None in Hnone.
  destruct (s_is_active s) eqn:Hact; [| reflexivity].
  assert (Hf : In s (List.filter
    (fun s => String.eqb (s_tenant_id s) tenant_id
              && String.eqb (s_store_id s) store_id && s_is_active s)
    (stores st))).
  { apply filter_In. split; [assumption |].
    now rewrite Ht, Hs, Hact, !String.eqb_refl. }
  rewrite Hnone in Hf. destruct Hf.
Qed.

Lemma failed_issuance_changes_nothing_witness :
  store_api_keys
    (snd (generate_api_key "t1" "s2" (Reference.host 1000 0) Reference.db0))
  = [Reference.key_s1; Reference.key_s2].
Proof.
  destruct (failed_issuance_changes_nothing
              "t1" "s2" (Reference.host 1000 0) Reference.db0 _ _ eq_refl)
    as (_ & Hkeys & _).
  exact Hkeys.
Defined.

(** ** The deferred quota task *)

Lemma validate_store_limit_run tenant_id env st tenant :
  select_active_tenant tenant_id (tenants st) = Some tenant ->
  validate_store_limit tenant_id env st =
  let store_count := active_store_count tenant_id (stores st) in
  let st2 := add_statement (CountActiveStores tenant_id)
               (add_statement (SelectTenantLimits tenant_id) st) in
  if store_count >=? t_max_stores tenant then
    (Raise (HTTPException 429
              ("Store limit exceeded: " +:+ pretty store_count +:+ "/"
               +:+ pretty (t_max_stores tenant))),
     add_log {| lr_level := WARNING;
                lr_message :=
                  "Store limit exceeded for tenant " +:+ tenant_id +:+ ": "
                  +:+ pretty store_count +:+ "/"
                  +:+ pretty (t_max_stores tenant);
                lr_extra := [] |} st2)
  else (Return tt, st2).
Proof.
  intros Hten. unfold validate_store_limit. monad_unfold. simpl.
  rewrite Hten. simpl. destruct (_ >=? _); reflexivity.
Qed.

(** X18.  The deferred task calls the cost check only after the
    store check of the limits service has returned normally, and then
    only when the UTC hour is a multiple of four.  When the store
    check raises, whatever the exception, the cost check is not
    called: the task logs one warning that names the failure on the
    state the store check left, and its outcome is the same for every
    cost check.  A failure of the cost check itself is logged in the
    same way.  In every case the task returns normally.  The limits
    service is the one [_validate_tenant_limits] imports; nothing is
    assumed of it. *)
Theorem cost_check_runs_only_after_store_check
    (validate check : string -> M unit) (tenant_id : string)
    (env : Env) (st st1 : State) (r1 : result unit) :
  validate tenant_id env st = (r1, st1) ->
  let hour := (utcnow env / 3600) mod 24 in
  let warning := fun e : exn =>
    {| lr_level := WARNING;
       lr_message := "Tenant limits validation failed for "
                     +:+ tenant_id +:+ ": " +:+ str_exn e;
       lr_extra := [] |} in
  fst (_validate_tenant_limits validate check tenant_id env st) = Return tt
  /\ (forall e, r1 = Raise e ->
        forall check',
          _validate_tenant_limits validate check' tenant_id env st
          = (Return tt, add_log (warning e) st1))
  /\ (r1 = Return tt -> hour mod 4 <> 0 ->
      forall check',
        _validate_tenant_limits validate check' tenant_id env st
        = (Return tt, st1))
  /\ (r1 = Return tt -> hour mod 4 = 0 ->
      _validate_tenant_limits validate check tenant_id env st
      = match check tenant_id env st1 with
        | (Return _, st2) => (Return tt, st2)
        | (Raise e, st2) => (Return tt, add_log (warning e) st2)
        end).
Proof.
  intros Hval hour warning.
  split; [apply validate_tenant_limits_returns |].
  split; [| split].
  - intros e -> check'.
    apply (validate_tenant_limits_logs _ _ _ _ _ _ _ Hval).
  - intros -> Hhour check'.
    unfold _validate_tenant_limits, try_except.
    unfold bind at 1. rewrite Hval.
    unfold bind, ask. fold hour.
    destruct (hour mod 4 =? 0) eqn:Hh; [lia | reflexivity].
  - intros -> Hhour.
    unfold _validate_tenant_limits, try_except.
    unfold bind at 1. rewrite Hval.
    unfold bind, ask. fold hour.
    destruct (hour mod 4 =? 0) eqn:Hh; [| lia].
    destruct (check tenant_id env st1) as [[[] | e] st2]; reflexivity.
Qed.

Lemma cost_check_runs_only_after_store_check_witness :
  fst (_validate_tenant_limits validate_store_limit
         Scenario.check_cost_limit_mark "t1" (Reference.host 0 0)
         Scenario.db_full) = Return tt
  /\ map lr_level
       (log (snd (_validate_tenant_limits validate_store_limit
                    Scenario.check_cost_limit_mark "t1" (Reference.host 0 0)
                    Scenario.db_full)))
     = [WARNING; WARNING].
Proof.
  destruct (cost_check_runs_only_after_store_check
              validate_store_limit Scenario.check_cost_limit_mark "t1"
              (Reference.host 0 0) Scenario.db_full _ _ eq_refl)
    as (Hret & Hrefused & _).
  split; [exact Hret |].
  rewrite (Hrefused _ eq_refl Scenario.check_cost_limit_mark).
  reflexivity.
Defined.

(** ** Dashboard users *)

(** What [create_dashboard_user] does, outcome by outcome. *)
Lemma create_dashboard_user_run
    temp_password user_suffix tenant_id email user_type permissions
    users env st r st' :
  create_dashboard_user temp_password user_suffix tenant_id email user_type
    permissions users env st = (r, st') ->
  let user_id := "user_" +:+ tenant_id +:+ "_" +:+ user_suffix in
  let row :=
    {| du_user_id := user_id; du_tenant_id := tenant_id;
       du_email := email;
       du_password_hash := sha256_hexdigest env temp_password;
       du_user_type := user_type;
       du_permissions := permissions_or_default permissions;
       du_is_active := true; du_password_change_required := true;
       du_created_at := posix_time env; du_last_login_at := None |} in
  tenants st' = tenants st
  /\ (r = Raise (HTTPException 409
                   ("User " +:+ email +:+ " already exists for tenant "
                    +:+ tenant_id))
      /\ List.filter (same_login email tenant_id) users <> []
      \/ (exists m, r = Raise (Exception "IntegrityError" m))
         /\ List.filter (same_login email tenant_id) users = []
      \/ r = Return
               ({| nu_user_id := user_id; nu_tenant_id := tenant_id;
                   nu_email := email; nu_user_type := user_type;
                   nu_permissions := permissions_or_default permissions;
                   nu_temp_password := temp_password;
                   nu_password_change_required := true |},
                users ++ [row])
         /\ List.filter (same_login email tenant_id) users = []
         /\ existsb (fun u => String.eqb (du_user_id u) user_id) users = false
         /\ existsb (fun t => String.eqb (t_tenant_id t) tenant_id)
              (tenants st) = true).
Proof.
  unfold create_dashboard_user, _hash_password. monad_unfold. simpl.
  destruct (List.filter (same_login email tenant_id) users) as [| u0 us] eqn:Hdup;
    simpl.
  - destruct (existsb (fun u => String.eqb (du_user_id u) _) users) eqn:Hpk;
      simpl.
    + intros [= <- <-]. split; [reflexivity |]. right. left. eauto.
    + destruct (existsb (fun t => String.eqb (t_tenant_id t) tenant_id)
                  (tenants st)) eqn:Hfk; simpl.
      * intros [= <- <-]. split; [reflexivity |]. right. right. auto.
      * intros [= <- <-]. split; [reflexivity |]. right. left. eauto.
  - intros [= <- <-]. split; [reflexivity |]. left. split; [reflexivity |].
    discriminate.
Qed.

Lemma select_user_tenant_In email password_hash users ts u t :
  In (u, t) (select_user_tenant email password_hash users ts) ->
  In u users /\ In t ts /\ du_email u = email
  /\ du_password_hash u = password_hash /\ du_is_active u = true
  /\ t_tenant_id t = du_tenant_id u.
Proof.
  unfold select_user_tenant. rewrite in_flat_map.
  intros (u' & Hu & Hin). rewrite in_map_iff in Hin.
  destruct Hin as (t' & [= <- <-] & Ht).
  rewrite filter_In in Hu, Ht. destruct Hu as [Hu Hp], Ht as [Ht Hid].
  apply andb_prop in Hp. destruct Hp as [Hp Hact].
  apply andb_prop in Hp. destruct Hp as [He Hh].
  apply String.eqb_eq in He, Hh, Hid. auto 10.
Qed.

Lemma authenticate_dashboard_user_unfold email password users env st :
  authenticate_dashboard_user email password users env st =
  match fetchone (select_user_tenant email (sha256_hexdigest env password)
                    users (tenants st)) with
  | None =>
      (Raise (HTTPException 401 "Invalid email or password"),
       add_log {| lr_level := WARNING;
                  lr_message := "Failed login attempt for " +:+ email;
                  lr_extra := [] |} st)
  | Some (u, t) =>
      if t_is_active t then
        (Return
           ({| au_user_id := du_user_id u; au_tenant_id := du_tenant_id u;
               au_email := du_email u; au_user_type := du_user_type u;
               au_permissions := du_permissions u;
               au_company_name := t_company_name t;
               au_password_change_required := du_password_change_required u;
               au_last_login_at := du_last_login_at u |},
            map (stamp_login (du_user_id u) (posix_time env)) users), st)
      else (Raise (HTTPException 401 "Tenant account is inactive"), st)
  end.
Proof.
  unfold authenticate_dashboard_user, _hash_password.
  unfold bind, ask, get, ret, raise, logger, modify.
  destruct (fetchone _) as [[u t] |]; [| reflexivity].
  destruct (t_is_active t); reflexivity.
Qed.



(** X20.  [create_dashboard_user] refuses an (email, tenant) pair that
    already has a row with a 409, and keeps the user table well
    formed: after a successful call no two rows share an
    (email, tenant) pair or a user id if none did before, every
    earlier row is still there, and exactly one row was added. *)
Theorem create_dashboard_user_keeps_logins_unique
    (temp_password user_suffix tenant_id email user_type : string)
    (permissions : option (list string)) (users : list DashboardUser)
    (env : Env) (st st' : State)
    (r : result (NewDashboardUser * list DashboardUser)) :
  create_dashboard_user temp_password user_suffix tenant_id email user_type
    permissions users env st = (r, st') ->
  logins_unique users ->
  NoDup (map du_user_id users) ->
  ((exists u, In u users /\ du_email u = email /\ du_tenant_id u = tenant_id) ->
   r = Raise (HTTPException 409
                ("User " +:+ email +:+ " already exists for tenant "
                 +:+ tenant_id)))
  /\ forall new users',
       r = Return (new, users') ->
       logins_unique users' /\ NoDup (map du_user_id users')
       /\ (forall u, In u users -> In u users')
       /\ length users' = S (length users).
Proof.
  intros Hrun Hlogins Hids.
  destruct (create_dashboard_user_run _ _ _ _ _ _ _ _ _ _ _ Hrun)
    as (_ & [(-> & _) | [([m ->] & Hnone) | (-> & Hnone & Hpk & _)]]).
  - split; [reflexivity | discriminate].
  - split; [| discriminate].
    intros (u & Hin & He & Ht).
    assert (Hf : In u (List.filter (same_login email tenant_id) users)).
    { apply filter_In. split; [assumption |]. unfold same_login.
      now rewrite He, Ht, !String.eqb_refl. }
    rewrite Hnone in Hf. destruct Hf.
  - split.
    + intros (u & Hin & He & Ht).
      assert (Hf : In u (List.filter (same_login email tenant_id) users)).
      { apply filter_In. split; [assumption |]. unfold same_login.
        now rewrite He, Ht, !String.eqb_refl. }
      rewrite Hnone in Hf. destruct Hf.
    + intros new users' [= <- <-].
      unfold logins_unique in *. rewrite !List.map_app. simpl.
      split; [| split; [| split]].
      * apply NoDup_app. split; [exact Hlogins |]. split.
        -- intros x Hin1 Hin2. apply list_elem_of_In in Hin1.
           apply list_elem_of_In in Hin2. destruct Hin2 as [<- | []].
           apply in_map_iff in Hin1. destruct Hin1 as (u & [= He Ht] & Hin).
           assert (Hf : In u (List.filter (same_login email tenant_id) users)).
           { apply filter_In. split; [assumption |]. unfold same_login.
             now rewrite He, Ht, !String.eqb_refl. }
           rewrite Hnone in Hf. destruct Hf.
        -- apply NoDup_singleton.
      * apply NoDup_app. split; [exact Hids |]. split.
        -- intros x Hin1 Hin2. apply list_elem_of_In in Hin1.
           apply list_elem_of_In in Hin2. destruct Hin2 as [<- | []].
           apply in_map_iff in Hin1. destruct Hin1 as (u & Hid & Hin).
           assert (Hex : existsb
             (fun u => String.eqb (du_user_id u)
                         ("user_" +:+ tenant_id +:+ "_" +:+ user_suffix))
             users = true).
           { apply existsb_exists. exists u. split; [assumption |].
             rewrite Hid. apply String.eqb_refl. }
           congruence.
        -- apply NoDup_singleton.
      * intros u Hin. apply in_or_app. now left.
      * rewrite List.length_app. simpl. lia.
Qed.

Lemma create_dashboard_user_keeps_logins_unique_witness :
  fst (create_dashboard_user "tmp-secret" "k3" "t1" "bob@acme.example"
         "client" None Scenario.users0 (Reference.host 1000 0) Reference.db0)
  = Raise (HTTPException 409
             "User bob@acme.example already exists for tenant t1").
Proof.
  destruct (create_dashboard_user_keeps_logins_unique
              "tmp-secret" "k3" "t1" "bob@acme.example" "client" None
              Scenario.users0 (Reference.host 1000 0) Reference.db0 _ _
              eq_refl) as [Hdup _].
  - unfold logins_unique. simpl. apply NoDup_singleton.
  - simpl. apply NoDup_singleton.
  - refine (Hdup _).
    exists Scenario.bob. split; [now left |]. split; reflexivity.
Defined.

Lemma stamp_login_digest user_id now u :
  du_password_hash (stamp_login user_id now u) = du_password_hash u
  /\ du_user_id (stamp_login user_id now u) = du_user_id u
  /\ du_is_active (stamp_login user_id now u) = du_is_active u.
Proof. unfold stamp_login. destruct (String.eqb _ user_id); auto. Qed.

(** X21.  [authenticate_dashboard_user] lets in only an active user
    whose stored digest is the digest of the password given and whose
    tenant is active; every refusal is a 401.  On success it returns
    the login time recorded before this login and stamps the time of
    the call on the rows of that user id only: the rows of other
    users, and every stored digest, are left as they were. *)
Theorem authenticate_dashboard_user_sound
    (email password : string) (users : list DashboardUser)
    (env : Env) (st st' : State)
    (r : result (AuthenticatedUser * list DashboardUser)) :
  authenticate_dashboard_user email password users env st = (r, st') ->
  (forall e, r = Raise e -> exists detail, e = HTTPException 401 detail)
  /\ forall user users',
       r = Return (user, users') ->
       (exists u t,
           In u users /\ In t (tenants st)
           /\ du_email u = email
           /\ du_password_hash u = sha256_hexdigest env password
           /\ du_is_active u = true
           /\ t_tenant_id t = du_tenant_id u /\ t_is_active t = true
           /\ au_user_id user = du_user_id u
           /\ au_tenant_id user = du_tenant_id u
           /\ au_permissions user = du_permissions u
           /\ au_last_login_at user = du_last_login_at u)
       /\ map du_password_hash users' = map du_password_hash users
       /\ (forall v, In v users -> du_user_id v <> au_user_id user ->
                     In v users')
       /\ (forall v', In v' users' -> du_user_id v' = au_user_id user ->
                      du_last_login_at v' = Some (posix_time env)).
Proof.
  rewrite authenticate_dashboard_user_unfold.
  destruct (fetchone _) as [[u t] |] eqn:Hrow.
  - destruct (t_is_active t) eqn:Hact; intros [= <- <-].
    + split; [discriminate |].
      intros user users' [= <- <-]. cbn.
      apply fetchone_In, select_user_tenant_In in Hrow.
      destruct Hrow as (Hu & Ht & He & Hh & Ha & Hid).
      split; [exists u, t; auto 15 |]. split; [| split].
      * rewrite List.map_map. apply map_ext. intros v.
        apply stamp_login_digest.
      * intros v Hin Hne. apply in_map_iff. exists v.
        split; [| assumption]. unfold stamp_login.
        destruct (String.eqb (du_user_id v) (du_user_id u)) eqn:E;
          [| reflexivity].
        apply String.eqb_eq in E. contradiction.
      * intros v' Hin Hid'. apply in_map_iff in Hin.
        destruct Hin as (v & <- & _). unfold stamp_login in *.
        destruct (String.eqb (du_user_id v) (du_user_id u)) eqn:E;
          [reflexivity |].
        apply String.eqb_neq in E. contradiction.
    + split; [| discriminate]. intros e [= <-]. eauto.
  - intros [= <- <-]. split; [| discriminate]. intros e [= <-]. eauto.
Qed.

Lemma authenticate_dashboard_user_sound_witness :
  exists user users',
    fst (authenticate_dashboard_user "bob@acme.example" "hunter2"
           Scenario.users0 (Reference.host 1000 0) Reference.db0)
    = Return (user, users')
    /\ au_last_login_at user = Some 500
    /\ map du_password_hash users' = map du_password_hash Scenario.users0.
Proof.
  destruct (authenticate_dashboard_user_sound
              "bob@acme.example" "hunter2" Scenario.users0
              (Reference.host 1000 0) Reference.db0 _ _ eq_refl)
    as [_ Hok].
  destruct (Hok _ _ eq_refl) as (_ & Hdigests & _).
  eexists. eexists. split; [reflexivity |].
  split; [reflexivity | exact Hdigests].
Defined.

(** ** The request pipeline: ordering and error mapping *)

(** X22.  Isolation comes first: behind the middleware, outside the
    bypass list, the handler only ever runs after
    [SET app.tenant_id] has been issued for the tenant of the request
    as the last statement, and after the quota task for that tenant
    has been queued.  Two handlers that agree in such states are
    indistinguishable. *)
Theorem handler_runs_after_isolation
    (call_next call_next' : Request -> M Response) (request : Request)
    (env : Env) (st : State) :
  existsb (String.eqb (url_path request)) bypass_paths = false ->
  (forall r env0 st0 tenant_id,
      get_tenant_id r = Return tenant_id ->
      (exists earlier,
          statements st0 = earlier ++ [SetAppTenant tenant_id]) ->
      (exists earlier, tasks st0 = earlier ++ [tenant_id]) ->
      call_next r env0 st0 = call_next' r env0 st0) ->
  __call__ call_next request env st = __call__ call_next' request env st.
Proof.
  intros Hpath Hagree.
  unfold __call__. rewrite Hpath.
  unfold try_except. rewrite !call_body_unfold.
  destruct (_extract_tenant_context request env st)
    as [[[tenant_id store_id] | e] st1]; [| reflexivity].
  destruct tenant_id as [t |]; simpl; [| reflexivity].
  destruct (String.eqb t EmptyString) eqn:Ht; simpl; [reflexivity |].
  rewrite (Hagree _ _ _ t); [reflexivity | reflexivity | |]; simpl; eauto.
Qed.

Lemma handler_runs_after_isolation_witness :
  let guarded := fun r : Request =>
    do st <- get;
    match List.last (statements st) (SelectStore "-" "-") with
    | SetAppTenant _ => Reference.handler_ok r
    | _ => raise (Exception "AssertionError" "no isolation context")
    end in
  __call__ Reference.handler_ok
    (Reference.request_with "store_t1_s1_abc123")
    (Reference.host 1000 0) Reference.db0
  = __call__ guarded (Reference.request_with "store_t1_s1_abc123")
      (Reference.host 1000 0) Reference.db0.
Proof.
  intros guarded.
  apply handler_runs_after_isolation; [reflexivity |].
  intros r env0 st0 t _ [earlier Hs] _.
  unfold guarded, bind, get. rewrite Hs, List.last_last. reflexivity.
Defined.

(** X23.  Outside the bypass list the middleware lets no exception
    but an [HTTPException] out: whatever the resolution, the handler
    or the activity log raise, the caller gets either that
    [HTTPException] or a response, and a failure of any other class
    becomes the generic 500 response, whose text does not depend on
    the failure. *)
Theorem middleware_masks_internal_failures
    (call_next : Request -> M Response) (request : Request)
    (env : Env) (st st' : State) (r : result Response) :
  existsb (String.eqb (url_path request)) bypass_paths = false ->
  __call__ call_next request env st = (r, st') ->
  (forall e, r = Raise e -> is_HTTPException e = true)
  /\ (forall e st1,
        call_body call_next request env st = (Raise e, st1) ->
        is_HTTPException e = false ->
        r = Return (JSONResponse 500 "Internal server error")).
Proof.
  intros Hpath. unfold __call__. rewrite Hpath. unfold try_except.
  destruct (call_body call_next request env st) as [[resp | e0] st1].
  - intros [= <- <-]. split; [discriminate |]. intros e st2 [=].
  - unfold call_except.
    destruct (is_HTTPException e0) eqn:Hhttp; monad_unfold; simpl;
      intros [= <- <-].
    + split; [intros e [= <-]; exact Hhttp |].
      intros e st2 [= <- _] H. congruence.
    + split; [discriminate | reflexivity].
Qed.

Lemma middleware_masks_internal_failures_witness :
  let failing := fun _ : Request =>
    raise (Exception "KeyError" "'secret_column'") : M Response in
  fst (__call__ failing (Reference.request_with "store_t1_s1_abc123")
         (Reference.host 1000 0) Reference.db0)
  = Return (JSONResponse 500 "Internal server error").
Proof.
  intros failing.
  destruct (middleware_masks_internal_failures
              failing (Reference.request_with "store_t1_s1_abc123")
              (Reference.host 1000 0) Reference.db0 _ _ eq_refl eq_refl)
    as [_ Hmask].
  refine (Hmask (Exception "KeyError" "'secret_column'") _ eq_refl eq_refl).
Defined.

(** X24.  A key that no longer resolves is refused as soon as the
    cache holds no live entry for it: the middleware sends one lookup,
    answers 401 itself, does not run the handler, and leaves tables
    and cache as they were. *)
Theorem unresolvable_key_is_refused
    (call_next : Request -> M Response) (request : Request)
    (env : Env) (st : State) :
  existsb (String.eqb (url_path request)) bypass_paths = false ->
  cache_hit (utcnow env)
    (api_key_cache st !! sha256_hexdigest env (bearer_key request)) = None ->
  fetchone (select_key_tenant (sha256_hexdigest env (bearer_key request)) st)
  = None ->
  exists st',
    __call__ call_next request env st
    = (Return (JSONResponse 401 "Invalid or missing API key"), st')
    /\ key_lookups st' <= key_lookups st + 1
    /\ last_used_updates st' = last_used_updates st
    /\ store_api_keys st' = store_api_keys st
    /\ api_key_cache st' = api_key_cache st
    /\ tasks st' = tasks st.
Proof.
  intros Hpath Hcold Hnone.
  unfold __call__. rewrite Hpath. unfold try_except.
  rewrite call_body_unfold, extract_tenant_context_unfold.
  destruct (negb _).
  { eexists. split; [reflexivity |]. repeat split; auto; lia. }
  destruct (String.eqb _ EmptyString).
  { eexists. split; [reflexivity |]. repeat split; auto; lia. }
  simpl. rewrite Hcold, lookup_api_key_unfold. simpl. rewrite Hnone. simpl.
  eexists. split; [reflexivity |]. simpl.
  repeat split; auto; trace_count.
Qed.

Lemma unresolvable_key_is_refused_witness :
  fst (__call__ Reference.handler_ok
         (Reference.request_with "store_t1_s1_abc123")
         (Reference.host 1000 0) Reference.db_t1_off)
  = Return (JSONResponse 401 "Invalid or missing API key").
Proof.
  destruct (unresolvable_key_is_refused
              Reference.handler_ok
              (Reference.request_with "store_t1_s1_abc123")
              (Reference.host 1000 0) Reference.db_t1_off
              eq_refl eq_refl eq_refl) as (st' & Hrun & _).
  now rewrite Hrun.
Defined.
